(** * Language module registry and debug-configuration generators

    A shallow embedding of the language-module registry
    ([LanguageModuleRegistry]), of the three bundled language modules
    (Python, Go, JavaScript/TypeScript) and of the JavaScript string and
    array primitives they are written with.

    Conventions of the embedding:
    - a JavaScript string is a [string] (a sequence of code units); indices
      are [Z], because the source relies on what [substring] does with the
      [-1] that [lastIndexOf] returns;
    - a [number] used as a framework priority is a [Z];
    - an asynchronous method is a computation in the monad [M]: it threads
      the registry's module map (the only mutable state) and either returns
      a value or throws; [await] is sequencing;
    - the host editor API ([vscode.workspace]) is a record of functions that
      every computation receives. *)

From Stdlib Require Import ZArith Ascii Permutation Sorted.
From Stdlib Require String.
From stdpp Require Import base gmap strings list.

Local Open Scope Z_scope.

(** String concatenation computes under [simpl] in this development. *)
#[local] Arguments String.append !_ _ / : simpl nomatch.

(** ** JavaScript strings and arrays *)

Module JS.

Definition length (s : string) : Z := Z.of_nat (String.length s).

(** [s.substring(start, end)]: both indices are clamped to [0, length]
    and swapped when [start > end]. *)
Definition clamp (len i : Z) : Z := Z.max 0 (Z.min i len).

Definition substring (s : string) (start finish : Z) : string :=
  let len := length s in
  let a := clamp len start in
  let b := clamp len finish in
  let lo := Z.min a b in
  let hi := Z.max a b in
  String.substring (Z.to_nat lo) (Z.to_nat (hi - lo)) s.

(** [s.substring(start)] *)
Definition substring_from (s : string) (start : Z) : string :=
  substring s start (length s).

(** [s.lastIndexOf(c)] for a one-character search string; [-1] when the
    character does not occur. *)
Fixpoint lastIndexOf_at (s : string) (c : ascii) (i found : Z) : Z :=
  match s with
  | EmptyString => found
  | String x s' =>
      lastIndexOf_at s' c (i + 1) (if Ascii.eqb x c then i else found)
  end.

Definition lastIndexOf (s : string) (c : ascii) : Z :=
  lastIndexOf_at s c 0 (-1).

(** [s.startsWith(search)] *)
Definition startsWith (s search : string) : bool := String.prefix search s.

(** [s.endsWith(search)]: the last [search.length] code units of [s] are
    compared with [search]. *)
Definition endsWith (s search : string) : bool :=
  let start := length s - length search in
  if start <? 0 then false
  else String.eqb (substring s start (length s)) search.

(** [s.indexOf(search)]; [-1] when there is no occurrence. *)
Fixpoint indexOf (s search : string) : Z :=
  if String.prefix search s then 0
  else match s with
       | EmptyString => -1
       | String _ s' =>
           let i := indexOf s' search in
           if i <? 0 then -1 else i + 1
       end.

(** [s.replace(pattern, replacement)] with a string pattern: only the
    first occurrence is replaced.  Every call in the source passes the
    empty replacement, so the [$]-patterns of replacement strings do not
    arise. *)
Definition replace (s pattern replacement : string) : string :=
  let i := indexOf s pattern in
  if i <? 0 then s
  else substring s 0 i +:+ replacement
       +:+ substring_from s (i + length pattern).

(** [s.replace(/^[...]/, '')] for a character class: one leading
    character of the class is removed. *)
Definition strip_leading (cls : ascii -> bool) (s : string) : string :=
  match s with
  | String c s' => if cls c then s' else s
  | EmptyString => s
  end.

(** The two character classes of the source: [/] and [[/\\]]. *)
Definition is_slash (c : ascii) : bool := Ascii.eqb c "/".
Definition is_sep (c : ascii) : bool :=
  Ascii.eqb c "/" || Ascii.eqb c "\".

(** [s.split(/[...]/)] for a character class. *)
Fixpoint split (cls : ascii -> bool) (s : string) : list string :=
  match s with
  | EmptyString => [EmptyString]
  | String c s' =>
      if cls c then EmptyString :: split cls s'
      else match split cls s' with
           | [] => [String c EmptyString]
           | seg :: segs => String c seg :: segs
           end
  end.

(** [a.pop()]: the last element, [undefined] on an empty array. *)
Definition pop {A} (a : list A) : option A := last a.

(** [x || ''] on a possibly undefined string: the empty string is falsy
    too, and is mapped to itself. *)
Definition or_empty (x : option string) : string :=
  match x with
  | Some s => s
  | None => EmptyString
  end.

(** [a.join(sep)] *)
Fixpoint join (sep : string) (a : list string) : string :=
  match a with
  | [] => EmptyString
  | [x] => x
  | x :: rest => x +:+ sep +:+ join sep rest
  end.

(** [a.includes(x)] on an array of strings *)
Definition array_includes (a : list string) (x : string) : bool :=
  existsb (String.eqb x) a.

(** [a.slice(1)] *)
Definition slice1 {A} (a : list A) : list A := tail a.

(** [a.sort(compare)].  The language requires a stable sort, and for a
    consistent comparator the result is then unique; it is computed here
    by insertion from the right.  [compare x y > 0] means that [x] is
    placed after [y]. *)
Section Sort.
Context {A : Type} (compare : A -> A -> Z).

Fixpoint sort_insert (x : A) (a : list A) : list A :=
  match a with
  | [] => [x]
  | y :: a' =>
      if 0 <? compare x y then y :: sort_insert x a'
      else x :: a
  end.

Fixpoint sort (a : list A) : list A :=
  match a with
  | [] => []
  | x :: a' => sort_insert x (sort a')
  end.
End Sort.

End JS.

(** ** Data model (types.ts) *)

(** [SymbolInfo]: the located code construct handed to the registry. *)
Record SymbolInfo := {
  sym_name : string;
  sym_path : list string;
  sym_kind : Z;
  sym_language : string;
  sym_filePath : string;
  sym_workspaceRoot : string
}.

Inductive Request := launch | attach.

(** [LanguageDebugConfig]: the three required keys and the extension keys
    that the bundled generators set.  A key that is absent, or set to
    [undefined], is [None]. *)
Record LanguageDebugConfig := {
  cfg_type : string;
  cfg_name : string;
  cfg_request : Request;
  cfg_module : option string;
  cfg_mode : option string;
  cfg_program : option string;
  cfg_args : option (list string);
  cfg_cwd : option string;
  cfg_env : option (list (string * string));
  cfg_console : option string;
  cfg_justMyCode : option bool;
  cfg_runtimeArgs : option (list string);
  cfg_windows : option (list (string * string))
}.

Record LanguageTestConfig := {
  tc_framework : string;
  tc_testCommand : string;
  tc_args : list string;
  tc_env : option (list (string * string));
  tc_cwd : option string
}.

(** [LanguageFramework] and [LanguageModule].  The human-readable metadata
    ([setupInstructions], [requirements], [documentation]) carries no
    behaviour and is left out. *)
Record LanguageFramework := {
  fw_name : string;
  fw_filePatterns : list string;
  fw_priority : Z;
  fw_debugConfig : SymbolInfo -> LanguageDebugConfig;
  fw_testConfig : option (SymbolInfo -> LanguageTestConfig)
}.

Record LanguageModule := {
  language : string;
  displayName : string;
  fileExtensions : list string;
  defaultDebugType : string;
  frameworks : list LanguageFramework;
  defaultConfig : string -> string -> LanguageDebugConfig
}.

(** The same module object after its [frameworks] array was rewritten. *)
Definition with_frameworks (m : LanguageModule)
    (fws : list LanguageFramework) : LanguageModule :=
  {| language := language m;
     displayName := displayName m;
     fileExtensions := fileExtensions m;
     defaultDebugType := defaultDebugType m;
     frameworks := fws;
     defaultConfig := defaultConfig m |}.

(** ** The host and the monad of registry computations *)

(** A thrown JavaScript value: [new Error(message)]. *)
Inductive JsError := Error (message : string).

(** The settled state of the promise returned by a host call. *)
Inductive Settled (A : Type) :=
  | Resolved (value : A)
  | Rejected (reason : JsError).
Arguments Resolved {A} value.
Arguments Rejected {A} reason.

(** [vscode.workspace]: the file search used as an existence probe (the
    exclude argument [null] and the limit [1] are fixed by the caller),
    and the path relativiser used by the Python frameworks. *)
Record Vscode := {
  findFiles : string -> Settled (list string);
  asRelativePath : string -> string
}.

(** The registry's state: [private modules: Map<string, LanguageModule>].
    A module object is identified with the entry it is stored in, so a
    mutation of the object is a write to that entry. *)
Abbreviation Registry := (gmap string LanguageModule).

Inductive Outcome (A : Type) :=
  | Returned (value : A)
  | Thrown (error : JsError).
Arguments Returned {A} value.
Arguments Thrown {A} error.

Definition M (A : Type) : Type := Registry -> Outcome A * Registry.

Definition ret {A} (a : A) : M A := fun modules => (Returned a, modules).

Definition bind {A B} (m : M A) (k : A -> M B) : M B :=
  fun modules =>
    match m modules with
    | (Returned a, modules') => k a modules'
    | (Thrown e, modules') => (Thrown e, modules')
    end.

Definition throw {A} (e : JsError) : M A := fun modules => (Thrown e, modules).

(** [try { body } catch (error) { handler }] *)
Definition try_catch {A} (body : M A) (handler : JsError -> M A) : M A :=
  fun modules =>
    match body modules with
    | (Returned a, modules') => (Returned a, modules')
    | (Thrown e, modules') => handler e modules'
    end.

(** [await promise] *)
Definition await {A} (p : Settled A) : M A :=
  match p with
  | Resolved a => ret a
  | Rejected e => throw e
  end.

Declare Scope registry_scope.
Delimit Scope registry_scope with registry.
Notation "'let*' x ':=' m 'in' k" := (bind m (fun x => k))
  (at level 10, x name, m at level 100, k at level 200) : registry_scope.
Local Open Scope registry_scope.

(** ** The registry (LanguageModuleRegistry) *)

Module Registry.

(** [register(module)]; the console message is not modelled. *)
Definition register (module : LanguageModule) : M unit :=
  fun modules => (Returned tt, <[language module := module]> modules).

Definition unregister (lang : string) : M unit :=
  fun modules => (Returned tt, delete lang modules).

Definition getModule (lang : string) : M (option LanguageModule) :=
  fun modules => (Returned (modules !! lang), modules).

(** The comparator [(a, b) => b.priority - a.priority]. *)
Definition by_priority_desc (a b : LanguageFramework) : Z :=
  fw_priority b - fw_priority a.

(** [module.frameworks.sort(...)] on the module stored under [lang]:
    the array is sorted in place and returned. *)
Definition sort_frameworks (lang : string) (module : LanguageModule)
    : M (list LanguageFramework) :=
  fun modules =>
    let sorted := JS.sort by_priority_desc (frameworks module) in
    (Returned sorted, <[lang := with_frameworks module sorted]> modules).

(** The loop of [matchesFramework] over [framework.filePatterns]. *)
Fixpoint matchesPatterns (vscode : Vscode) (patterns : list string)
    : M bool :=
  match patterns with
  | [] => ret false
  | pattern :: rest =>
      let* hit :=
        try_catch
          (let* files := await (findFiles vscode pattern) in
           ret (0 <? Z.of_nat (List.length files)))
          (fun _ => ret false) in
      if hit then ret true else matchesPatterns vscode rest
  end.

Definition matchesFramework (vscode : Vscode) (symbol : SymbolInfo)
    (framework : LanguageFramework) : M bool :=
  matchesPatterns vscode (fw_filePatterns framework).

(** The loop of [detectFramework] over the sorted frameworks. *)
Fixpoint firstMatch (vscode : Vscode) (symbol : SymbolInfo)
    (fws : list LanguageFramework) : M (option LanguageFramework) :=
  match fws with
  | [] => ret None
  | framework :: rest =>
      let* hit := matchesFramework vscode symbol framework in
      if hit then ret (Some framework)
      else firstMatch vscode symbol rest
  end.

Definition detectFramework (vscode : Vscode) (symbol : SymbolInfo)
    : M (option LanguageFramework) :=
  let* module := getModule (sym_language symbol) in
  match module with
  | None => ret None
  | Some module =>
      let* sortedFrameworks :=
        sort_frameworks (sym_language symbol) module in
      firstMatch vscode symbol sortedFrameworks
  end.

Definition generateDebugConfig (vscode : Vscode) (symbol : SymbolInfo)
    : M LanguageDebugConfig :=
  let* module := getModule (sym_language symbol) in
  match module with
  | None =>
      throw (Error ("No module registered for language: "
                    +:+ sym_language symbol))
  | Some module =>
      let* framework := detectFramework vscode symbol in
      match framework with
      | Some framework => ret (fw_debugConfig framework symbol)
      | None =>
          ret (defaultConfig module (sym_filePath symbol)
                 (sym_workspaceRoot symbol))
      end
  end.

Definition generateTestConfig (vscode : Vscode) (symbol : SymbolInfo)
    : M (option LanguageTestConfig) :=
  let* framework := detectFramework vscode symbol in
  match framework with
  | Some framework =>
      match fw_testConfig framework with
      | Some testConfig => ret (Some (testConfig symbol))
      | None => ret None
      end
  | None => ret None
  end.

Definition getFrameworkInfo (lang : string) : M (list (string * Z)) :=
  let* module := getModule lang in
  match module with
  | None => ret []
  | Some module =>
      let* sorted := sort_frameworks lang module in
      ret (map (fun fw => (fw_name fw, fw_priority fw)) sorted)
  end.

End Registry.

(** ** The Python module (python.ts) *)

Module Python.

Definition pytest_target (vscode : Vscode) (symbol : SymbolInfo) : string :=
  asRelativePath vscode (sym_filePath symbol) +:+ "::"
  +:+ JS.join "::" (sym_path symbol).

Definition pytest (vscode : Vscode) : LanguageFramework :=
  {| fw_name := "pytest";
     fw_filePatterns :=
       ["**/test_*.py"; "**/*_test.py"; "**/tests/**"; "**/conftest.py";
        "pytest.ini"; "pyproject.toml"; "setup.cfg"];
     fw_priority := 10;
     fw_debugConfig := fun symbol =>
       {| cfg_name := "pytest: " +:+ sym_name symbol;
          cfg_type := "python";
          cfg_request := launch;
          cfg_module := Some "pytest";
          cfg_mode := None;
          cfg_program := None;
          cfg_args := Some ["-s"; "-v"; pytest_target vscode symbol];
          cfg_cwd := Some "${workspaceFolder}";
          cfg_env := Some [("PYTHONPATH", "${workspaceFolder}")];
          cfg_console := Some "integratedTerminal";
          cfg_justMyCode := Some false;
          cfg_runtimeArgs := None;
          cfg_windows := None |};
     fw_testConfig := Some (fun symbol =>
       {| tc_framework := "pytest";
          tc_testCommand := "pytest";
          tc_args := ["-s"; "-v"; pytest_target vscode symbol];
          tc_env := Some [("PYTHONPATH", "${workspaceFolder}")];
          tc_cwd := Some "${workspaceFolder}" |}) |}.

Definition unittest (vscode : Vscode) : LanguageFramework :=
  {| fw_name := "unittest";
     fw_filePatterns := ["**/test_*.py"; "**/*_test.py"; "**/tests/**"];
     fw_priority := 5;
     fw_debugConfig := fun symbol =>
       {| cfg_name := "unittest: " +:+ sym_name symbol;
          cfg_type := "python";
          cfg_request := launch;
          cfg_module := Some "unittest";
          cfg_mode := None;
          cfg_program := None;
          cfg_args := Some
            [JS.replace (asRelativePath vscode (sym_filePath symbol))
               ".py" ""
             +:+ "." +:+ JS.join "." (JS.slice1 (sym_path symbol))];
          cfg_cwd := Some "${workspaceFolder}";
          cfg_env := None;
          cfg_console := Some "integratedTerminal";
          cfg_justMyCode := Some true;
          cfg_runtimeArgs := None;
          cfg_windows := None |};
     fw_testConfig := None |}.

Definition pythonDefaultConfig (filePath workspaceRoot : string)
    : LanguageDebugConfig :=
  let relativePath :=
    JS.strip_leading JS.is_sep (JS.replace filePath workspaceRoot "") in
  {| cfg_name := "Python: Current File";
     cfg_type := "python";
     cfg_request := launch;
     cfg_module := None;
     cfg_mode := None;
     cfg_program := Some ("${workspaceFolder}/" +:+ relativePath);
     cfg_args := None;
     cfg_cwd := Some "${workspaceFolder}";
     cfg_env := None;
     cfg_console := Some "integratedTerminal";
     cfg_justMyCode := Some true;
     cfg_runtimeArgs := None;
     cfg_windows := None |}.

Definition pythonModule (vscode : Vscode) : LanguageModule :=
  {| language := "python";
     displayName := "Python";
     fileExtensions := ["py"; "pyw"; "py3"];
     defaultDebugType := "python";
     frameworks := [pytest vscode; unittest vscode];
     defaultConfig := pythonDefaultConfig |}.

End Python.

(** ** The Go module (golang.ts) *)

Module Golang.

Definition truthy (s : string) : bool := negb (String.eqb s "").

Definition go_env : list (string * string) :=
  [("GOPATH", "${workspaceFolder}"); ("GO111MODULE", "on")].

Definition isGoTestFunction (symbol : SymbolInfo) : bool :=
  let isTestFile := JS.endsWith (sym_filePath symbol) "_test.go" in
  let isTestSymbol :=
    JS.startsWith (sym_name symbol) "Test"
    || JS.startsWith (sym_name symbol) "Benchmark"
    || JS.startsWith (sym_name symbol) "Example" in
  isTestFile && isTestSymbol.

Definition isGoMainFunction (symbol : SymbolInfo) : bool :=
  String.eqb (sym_name symbol) "main"
  && JS.array_includes (sym_path symbol) "main".

Definition getFileDirectoryPath (filePath workspaceRoot : string) : string :=
  let dirPath := JS.substring filePath 0 (JS.lastIndexOf filePath "/") in
  if String.eqb dirPath filePath then "${workspaceFolder}"
  else if truthy workspaceRoot && JS.startsWith filePath workspaceRoot then
    let relativePath :=
      JS.strip_leading JS.is_slash
        (JS.substring_from filePath (JS.length workspaceRoot)) in
    let relativeDirPath :=
      JS.substring relativePath 0 (JS.lastIndexOf relativePath "/") in
    if truthy relativeDirPath then "${workspaceFolder}/" +:+ relativeDirPath
    else "${workspaceFolder}"
  else dirPath.

Definition generateGoDebugConfig (symbol : SymbolInfo)
    : LanguageDebugConfig :=
  let fileDirPath :=
    getFileDirectoryPath (sym_filePath symbol) (sym_workspaceRoot symbol) in
  if isGoTestFunction symbol then
    {| cfg_name := "Go Test: " +:+ sym_name symbol;
       cfg_type := "go";
       cfg_request := launch;
       cfg_module := None;
       cfg_mode := Some "test";
       cfg_program := Some fileDirPath;
       cfg_args := Some
         ["-test.run"; "^" +:+ sym_name symbol +:+ "$"; "-test.v"];
       cfg_cwd := None;
       cfg_env := Some go_env;
       cfg_console := None;
       cfg_justMyCode := None;
       cfg_runtimeArgs := None;
       cfg_windows := None |}
  else if isGoMainFunction symbol then
    {| cfg_name :=
         "Go Debug: " +:+ sym_name symbol +:+ " (" +:+ fileDirPath +:+ ")";
       cfg_type := "go";
       cfg_request := launch;
       cfg_module := None;
       cfg_mode := Some "debug";
       cfg_program := Some fileDirPath;
       cfg_args := None;
       cfg_cwd := None;
       cfg_env := Some go_env;
       cfg_console := None;
       cfg_justMyCode := None;
       cfg_runtimeArgs := None;
       cfg_windows := None |}
  else
    {| cfg_name :=
         "Go Debug: " +:+ sym_name symbol +:+ " (" +:+ fileDirPath +:+ ")";
       cfg_type := "go";
       cfg_request := launch;
       cfg_module := None;
       cfg_mode := Some "auto";
       cfg_program := Some fileDirPath;
       cfg_args := None;
       cfg_cwd := None;
       cfg_env := Some go_env;
       cfg_console := None;
       cfg_justMyCode := None;
       cfg_runtimeArgs := None;
       cfg_windows := None |}.

Definition go_test : LanguageFramework :=
  {| fw_name := "go-test";
     fw_filePatterns := ["**/*_test.go"; "go.mod"; "go.sum"];
     fw_priority := 10;
     fw_debugConfig := generateGoDebugConfig;
     fw_testConfig := Some (fun symbol =>
       let fileDirPath :=
         getFileDirectoryPath (sym_filePath symbol)
           (sym_workspaceRoot symbol) in
       {| tc_framework := "go-test";
          tc_testCommand := "go test";
          tc_args :=
            if isGoTestFunction symbol
            then ["-run"; "^" +:+ sym_name symbol +:+ "$"; "-v"; fileDirPath]
            else ["-v"; fileDirPath];
          tc_cwd := Some fileDirPath;
          tc_env := Some go_env |}) |}.

Definition go_main : LanguageFramework :=
  {| fw_name := "go-main";
     fw_filePatterns := ["**/main.go"; "go.mod"];
     fw_priority := 8;
     fw_debugConfig := generateGoDebugConfig;
     fw_testConfig := None |}.

Definition goDefaultConfig (filePath workspaceRoot : string)
    : LanguageDebugConfig :=
  let fileName := JS.or_empty (JS.pop (JS.split JS.is_sep filePath)) in
  let fileDirPath := getFileDirectoryPath filePath workspaceRoot in
  if String.eqb fileName "main.go" then
    {| cfg_name := "Launch file";
       cfg_type := "go";
       cfg_request := launch;
       cfg_module := None;
       cfg_mode := Some "debug";
       cfg_program := Some "${file}";
       cfg_args := None;
       cfg_cwd := None;
       cfg_env := Some go_env;
       cfg_console := None;
       cfg_justMyCode := None;
       cfg_runtimeArgs := None;
       cfg_windows := None |}
  else if JS.endsWith fileName "_test.go" then
    {| cfg_name := "Go: Launch Tests";
       cfg_type := "go";
       cfg_request := launch;
       cfg_module := None;
       cfg_mode := Some "test";
       cfg_program := Some fileDirPath;
       cfg_args := Some ["-test.v"];
       cfg_cwd := None;
       cfg_env := Some go_env;
       cfg_console := None;
       cfg_justMyCode := None;
       cfg_runtimeArgs := None;
       cfg_windows := None |}
  else
    {| cfg_name := "Go: Launch Package (" +:+ fileDirPath +:+ ")";
       cfg_type := "go";
       cfg_request := launch;
       cfg_module := None;
       cfg_mode := Some "auto";
       cfg_program := Some fileDirPath;
       cfg_args := None;
       cfg_cwd := None;
       cfg_env := Some go_env;
       cfg_console := None;
       cfg_justMyCode := None;
       cfg_runtimeArgs := None;
       cfg_windows := None |}.

Definition golangModule : LanguageModule :=
  {| language := "go";
     displayName := "Go";
     fileExtensions := ["go"];
     defaultDebugType := "go";
     frameworks := [go_test; go_main];
     defaultConfig := goDefaultConfig |}.

End Golang.

(** ** The JavaScript/TypeScript module (javascript.ts) *)

Module Javascript.

Definition ts_env : list (string * string) :=
  [("TS_NODE_PROJECT", "${workspaceFolder}/tsconfig.json")].

Definition ts_runtimeArgs : list string := ["-r"; "ts-node/register"].

Definition jest : LanguageFramework :=
  {| fw_name := "jest";
     fw_filePatterns :=
       ["**/*.test.js"; "**/*.test.ts"; "**/*.spec.js"; "**/*.spec.ts";
        "**/test/**"; "**/tests/**"; "jest.config.*"; "package.json"];
     fw_priority := 10;
     fw_debugConfig := fun symbol =>
       let isTypeScript :=
         JS.endsWith (sym_filePath symbol) ".ts"
         || JS.endsWith (sym_filePath symbol) ".tsx" in
       {| cfg_name := "Jest: " +:+ sym_name symbol;
          cfg_type := "node";
          cfg_request := launch;
          cfg_module := None;
          cfg_mode := None;
          cfg_program := Some "${workspaceFolder}/node_modules/.bin/jest";
          cfg_args := Some ["--runInBand"; "--testNamePattern";
                            sym_name symbol];
          cfg_cwd := Some "${workspaceFolder}";
          cfg_env := if isTypeScript then Some ts_env else None;
          cfg_console := Some "integratedTerminal";
          cfg_justMyCode := None;
          cfg_runtimeArgs :=
            if isTypeScript then Some ts_runtimeArgs else None;
          cfg_windows := Some
            [("program", "${workspaceFolder}/node_modules/jest/bin/jest")]
       |};
     fw_testConfig := Some (fun symbol =>
       {| tc_framework := "jest";
          tc_testCommand := "jest";
          tc_args := ["--runInBand"; "--testNamePattern"; sym_name symbol];
          tc_env := None;
          tc_cwd := Some "${workspaceFolder}" |}) |}.

Definition mocha : LanguageFramework :=
  {| fw_name := "mocha";
     fw_filePatterns :=
       ["**/test/**"; "**/tests/**"; "*test.js"; "*test.ts"; "*spec.js";
        "*spec.ts"; "mocha.opts"];
     fw_priority := 5;
     fw_debugConfig := fun symbol =>
       let isTs := JS.endsWith (sym_filePath symbol) ".ts" in
       {| cfg_name := "Mocha: " +:+ sym_name symbol;
          cfg_type := "node";
          cfg_request := launch;
          cfg_module := None;
          cfg_mode := None;
          cfg_program := Some "${workspaceFolder}/node_modules/.bin/mocha";
          cfg_args := Some ["--grep"; sym_name symbol];
          cfg_cwd := Some "${workspaceFolder}";
          cfg_env := if isTs then Some ts_env else None;
          cfg_console := Some "integratedTerminal";
          cfg_justMyCode := None;
          cfg_runtimeArgs := if isTs then Some ts_runtimeArgs else None;
          cfg_windows := None |};
     fw_testConfig := Some (fun symbol =>
       {| tc_framework := "mocha";
          tc_testCommand := "mocha";
          tc_args := ["--grep"; sym_name symbol];
          tc_env := None;
          tc_cwd := Some "${workspaceFolder}" |}) |}.

Definition javascriptDefaultConfig (filePath workspaceRoot : string)
    : LanguageDebugConfig :=
  let relativePath :=
    JS.strip_leading JS.is_sep (JS.replace filePath workspaceRoot "") in
  let isTypeScript :=
    JS.endsWith filePath ".ts" || JS.endsWith filePath ".tsx" in
  {| cfg_name := if isTypeScript then "Node.js: TypeScript File"
                 else "Node.js: JavaScript File";
     cfg_type := "node";
     cfg_request := launch;
     cfg_module := None;
     cfg_mode := None;
     cfg_program := Some ("${workspaceFolder}/" +:+ relativePath);
     cfg_args := None;
     cfg_cwd := Some "${workspaceFolder}";
     cfg_env := if isTypeScript then Some ts_env else None;
     cfg_console := Some "integratedTerminal";
     cfg_justMyCode := None;
     cfg_runtimeArgs := if isTypeScript then Some ts_runtimeArgs else None;
     cfg_windows := None |}.

Definition javascriptModule : LanguageModule :=
  {| language := "javascript";
     displayName := "JavaScript/TypeScript";
     fileExtensions := ["js"; "mjs"; "cjs"; "ts"; "tsx"; "jsx"];
     defaultDebugType := "node";
     frameworks := [jest; mocha];
     defaultConfig := javascriptDefaultConfig |}.

End Javascript.

(** ** The singleton registry *)

(** [registerDefaultModules()] *)
Definition registerDefaultModules (vscode : Vscode) : M unit :=
  let* _ := Registry.register (Python.pythonModule vscode) in
  let* _ := Registry.register Golang.golangModule in
  Registry.register Javascript.javascriptModule.

(** The module map of [languageRegistry] once its constructor has run. *)
Definition languageRegistry (vscode : Vscode) : Registry :=
  snd (registerDefaultModules vscode ∅).

(** The result and the final module map of a computation. *)
Definition result {A} (r : Outcome A * Registry) : Outcome A := fst r.
Definition modules_after {A} (r : Outcome A * Registry) : Registry := snd r.

(** The workspace probe read as a predicate: the search for [pattern]
    settles with at least one file. *)
Definition pattern_hits (vscode : Vscode) (pattern : string) : bool :=
  match findFiles vscode pattern with
  | Resolved (_ :: _) => true
  | _ => false
  end.

(** Some pattern of the framework matches an existing workspace file. *)
Definition framework_present (vscode : Vscode) (fw : LanguageFramework)
    : bool :=
  existsb (pattern_hits vscode) (fw_filePatterns fw).

(** The host in which every failing probe is replaced by a probe that
    finds nothing. *)
Definition without_probe_failures (vscode : Vscode) : Vscode :=
  {| findFiles := fun pattern =>
       match findFiles vscode pattern with
       | Resolved files => Resolved files
       | Rejected _ => Resolved []
       end;
     asRelativePath := asRelativePath vscode |}.

(** [b] is the last path component of [filePath], for either separator. *)
Definition has_basename (filePath b : string) : Prop :=
  filePath = b \/
  exists dir c, JS.is_sep c = true /\ filePath = dir +:+ String c b.

(** No character of [s] belongs to the class. *)
Fixpoint class_free (cls : ascii -> bool) (s : string) : bool :=
  match s with
  | EmptyString => true
  | String c s' => negb (cls c) && class_free cls s'
  end.

(** The comparator [(a, b) => key(b) - key(a)] and the order it sorts
    into. *)
Definition compare_desc {A : Type} (key : A -> Z) (a b : A) : Z :=
  key b - key a.
Definition desc {A : Type} (key : A -> Z) (a b : A) : Prop :=
  key b <= key a.

(** Example hosts and symbols. *)
Module Examples.

(** A workspace without files. *)
Definition empty_workspace : Vscode :=
  {| findFiles := fun _ => Resolved [];
     asRelativePath := fun p => p |}.

(** A Go workspace that holds a [main.go] and nothing else, in a host
    whose search rejects the pattern [go.sum]. *)
Definition main_only_workspace : Vscode :=
  {| findFiles := fun pattern =>
       if String.eqb pattern "**/main.go"
       then Resolved ["/workspace/main.go"]
       else if String.eqb pattern "go.sum"
       then Rejected (Error "search failed")
       else Resolved [];
     asRelativePath := fun p => p |}.

(** A workspace in which every probe finds a file. *)
Definition full_workspace : Vscode :=
  {| findFiles := fun pattern => Resolved [pattern];
     asRelativePath := fun p => p |}.

Definition TestAddition : SymbolInfo :=
  {| sym_name := "TestAddition"; sym_path := ["TestAddition"];
     sym_kind := 12; sym_language := "go";
     sym_filePath := "/workspace/math_test.go";
     sym_workspaceRoot := "/workspace" |}.

Definition rust_symbol : SymbolInfo :=
  {| sym_name := "main"; sym_path := ["main"];
     sym_kind := 12; sym_language := "rust";
     sym_filePath := "/workspace/src/main.rs";
     sym_workspaceRoot := "/workspace" |}.

(** A Go module that lists its frameworks in ascending priority. *)
Definition ascending_go_module : LanguageModule :=
  with_frameworks Golang.golangModule [Golang.go_main; Golang.go_test].

End Examples.

(** ** The module map in insertion order *)

(** [getAllModules], [getSupportedLanguages] and [getModuleByExtension]
    iterate over the module map, and a JavaScript [Map] iterates in
    insertion order.  Here the map is the list of its entries in that
    order; [module_map] is its view as the finite map used above. *)
Module OrderedRegistry.

Abbreviation Modules := (list (string * LanguageModule)).

(** [map.set(key, value)]: an existing key keeps its place, a new key goes
    to the end. *)
Fixpoint map_set (key : string) (value : LanguageModule)
    (entries : Modules) : Modules :=
  match entries with
  | [] => [(key, value)]
  | (k, v) :: rest =>
      if String.eqb k key then (key, value) :: rest
      else (k, v) :: map_set key value rest
  end.

(** [map.delete(key)] *)
Fixpoint map_delete (key : string) (entries : Modules) : Modules :=
  match entries with
  | [] => []
  | (k, v) :: rest =>
      if String.eqb k key then rest else (k, v) :: map_delete key rest
  end.

(** [map.get(key)] *)
Definition map_get (key : string) (entries : Modules)
    : option LanguageModule :=
  snd <$> List.find (fun entry => String.eqb (fst entry) key) entries.

Definition register (module : LanguageModule) (entries : Modules)
    : Modules :=
  map_set (language module) module entries.

Definition unregister (lang : string) (entries : Modules) : Modules :=
  map_delete lang entries.

Definition getModule (lang : string) (entries : Modules)
    : option LanguageModule :=
  map_get lang entries.

Definition getAllModules (entries : Modules) : list LanguageModule :=
  map snd entries.

Definition getSupportedLanguages (entries : Modules) : list string :=
  map fst entries.

(** [String.prototype.toLowerCase] is the host's and is a parameter. *)
Definition getModuleByExtension (toLowerCase : string -> string)
    (extension : string) (entries : Modules) : option LanguageModule :=
  List.find
    (fun module =>
       JS.array_includes (fileExtensions module) (toLowerCase extension))
    (map snd entries).

Definition registerDefaultModules (vscode : Vscode) (entries : Modules)
    : Modules :=
  register Javascript.javascriptModule
    (register Golang.golangModule
       (register (Python.pythonModule vscode) entries)).

(** The entries as a finite map. *)
Definition module_map (entries : Modules) : Registry := list_to_map entries.

(** Every module is stored under its own language key. *)
Definition keyed_by_language (entries : Modules) : Prop :=
  Forall (fun entry => fst entry = language (snd entry)) entries.

End OrderedRegistry.

(** ** What the registry may change *)

(** Two module objects that differ at most in the order of their
    frameworks. *)
Definition same_module_up_to_order (m m' : LanguageModule) : Prop :=
  language m' = language m
  /\ displayName m' = displayName m
  /\ fileExtensions m' = fileExtensions m
  /\ defaultDebugType m' = defaultDebugType m
  /\ defaultConfig m' = defaultConfig m
  /\ Permutation (frameworks m') (frameworks m).

(** Two module maps with the same languages and, under each, the same
    module up to the order of its frameworks. *)
Definition same_registry_up_to_order (before after : Registry) : Prop :=
  forall lang,
    match before !! lang, after !! lang with
    | Some m, Some m' => same_module_up_to_order m m'
    | None, None => True
    | _, _ => False
    end.

(** The module map once the frameworks of the module under [lang] were
    sorted in place. *)
Definition after_sort (lang : string) (modules : Registry) : Registry :=
  match modules !! lang with
  | Some module =>
      <[lang := with_frameworks module
                  (JS.sort Registry.by_priority_desc (frameworks module))]>
        modules
  | None => modules
  end.

(** A configuration of the given debug type with request [launch]. *)
Definition launches_as (type : string) (cfg : LanguageDebugConfig) : Prop :=
  cfg_type cfg = type /\ cfg_request cfg = launch.

(** ** Generators and rendered programs *)






(** Further example data. *)
Module MoreExamples.

(** Lower-casing of the letters [A] to [Z]. *)
Definition lower_ascii (c : ascii) : ascii :=
  let n := nat_of_ascii c in
  if (Nat.leb 65 n && Nat.leb n 90)%bool then ascii_of_nat (n + 32) else c.

Fixpoint lower (s : string) : string :=
  match s with
  | EmptyString => EmptyString
  | String c s' => String (lower_ascii c) (lower s')
  end.

Definition marker (name pattern : string) (priority : Z)
    : LanguageFramework :=
  {| fw_name := name;
     fw_filePatterns := [pattern];
     fw_priority := priority;
     fw_debugConfig := Golang.generateGoDebugConfig;
     fw_testConfig := None |}.

(** A module with a framework that is absent from the workspace below
    and two present frameworks of equal priority. *)
Definition tied_module : LanguageModule :=
  with_frameworks Golang.golangModule
    [marker "first" "a.cfg" 5; marker "top" "missing" 9;
     marker "second" "b.cfg" 5].

Definition tied_workspace : Vscode :=
  {| findFiles := fun pattern =>
       if String.eqb pattern "missing" then Resolved []
       else Resolved [pattern];
     asRelativePath := fun p => p |}.

Definition main_symbol : SymbolInfo :=
  {| sym_name := "main"; sym_path := ["main"];
     sym_kind := 12; sym_language := "go";
     sym_filePath := "/workspace/cmd/app/main.go";
     sym_workspaceRoot := "/workspace" |}.

End MoreExamples.

(** ** Facts about the string primitives *)

Module JSFacts.

Lemma string_app_empty_r (s : string) : s +:+ "" = s.
Proof. induction s as [|c s IH]; simpl; [done | by rewrite IH]. Qed.

Lemma string_app_assoc (a b c : string) : (a +:+ b) +:+ c = a +:+ (b +:+ c).
Proof. induction a as [|x a IH]; simpl; [done | by rewrite IH]. Qed.

Lemma string_length_app (a b : string) :
  String.length (a +:+ b) = (String.length a + String.length b)%nat.
Proof. induction a as [|x a IH]; simpl; [done | by rewrite IH]. Qed.

Lemma prefix_app (p r : string) : String.prefix p (p +:+ r) = true.
Proof.
  induction p as [|c p IH]; simpl; [by destruct r |].
  case_match; [exact IH | done].
Qed.

Lemma prefix_inv (p s : string) :
  String.prefix p s = true -> exists r, s = p +:+ r.
Proof.
  revert s. induction p as [|c p IH]; intros s H; simpl in *.
  - by exists s.
  - destruct s as [|d s]; simpl in H; [done |].
    case_match; [subst d | done].
    destruct (IH _ H) as [r ->]. by exists r.
Qed.

Lemma startsWith_iff (s p : string) :
  JS.startsWith s p = true <-> exists r, s = p +:+ r.
Proof.
  split; [apply prefix_inv | intros [r ->]; apply prefix_app].
Qed.

Lemma substring_0_0 (s : string) : String.substring 0 0 s = "".
Proof. by destruct s. Qed.

Lemma substring_0_app (a b : string) :
  String.substring 0 (String.length a) (a +:+ b) = a.
Proof.
  induction a as [|x a IH]; simpl; [apply substring_0_0 | by rewrite IH].
Qed.

Lemma substring_whole (s : string) :
  String.substring 0 (String.length s) s = s.
Proof.
  pose proof (substring_0_app s "") as H. by rewrite string_app_empty_r in H.
Qed.

Lemma substring_skip_app (a b : string) (n : nat) :
  String.substring (String.length a) n (a +:+ b) = String.substring 0 n b.
Proof. induction a as [|x a IH]; simpl; done. Qed.

Lemma substring_split (s : string) (n : nat) :
  (n <= String.length s)%nat ->
  s = String.substring 0 n s
      +:+ String.substring n (String.length s - n) s.
Proof.
  revert n. induction s as [|c s IH]; intros [|n] H; simpl in *;
    try done; try lia.
  - by rewrite substring_whole.
  - rewrite <- IH; [done | lia].
Qed.

Lemma length_substring_le (s : string) (n m : nat) :
  (String.length (String.substring n m s) <= m)%nat.
Proof.
  revert n m. induction s as [|c s IH]; intros [|n] [|m]; simpl;
    try lia.
  - specialize (IH 0%nat m). lia.
  - apply IH.
  - apply IH.
Qed.

(** *** [substring] inside the string and at negative indices *)

Lemma js_substring_range (s : string) (a b : Z) :
  0 <= a <= b -> b <= JS.length s ->
  JS.substring s a b
  = String.substring (Z.to_nat a) (Z.to_nat (b - a)) s.
Proof.
  intros Ha Hb. unfold JS.substring, JS.clamp.
  replace (Z.max 0 (Z.min a (JS.length s))) with a by lia.
  replace (Z.max 0 (Z.min b (JS.length s))) with b by lia.
  by rewrite Z.min_l, Z.max_r by lia.
Qed.

Lemma js_substring_0_nonpos (s : string) (i : Z) :
  i <= 0 -> JS.substring s 0 i = "".
Proof.
  intros Hi. unfold JS.substring, JS.clamp.
  assert (0 <= JS.length s) by (unfold JS.length; lia).
  replace (Z.max 0 (Z.min 0 (JS.length s))) with 0 by lia.
  replace (Z.max 0 (Z.min i (JS.length s))) with 0 by lia.
  simpl. apply substring_0_0.
Qed.

Lemma js_length_app (a b : string) :
  JS.length (a +:+ b) = JS.length a + JS.length b.
Proof. unfold JS.length. rewrite string_length_app. lia. Qed.

Lemma js_length_nonneg (s : string) : 0 <= JS.length s.
Proof. unfold JS.length. lia. Qed.

Lemma js_substring_from_app (a b : string) :
  JS.substring_from (a +:+ b) (JS.length a) = b.
Proof.
  unfold JS.substring_from.
  pose proof (js_length_nonneg a). pose proof (js_length_nonneg b).
  rewrite js_substring_range by (rewrite ?js_length_app; lia).
  rewrite js_length_app.
  replace (JS.length a + JS.length b - JS.length a) with (JS.length b)
    by lia.
  unfold JS.length. rewrite !Nat2Z.id, substring_skip_app.
  apply substring_whole.
Qed.

(** *** [endsWith] is the suffix relation *)

Lemma endsWith_app (pre t : string) : JS.endsWith (pre +:+ t) t = true.
Proof.
  unfold JS.endsWith.
  pose proof (js_length_nonneg pre). pose proof (js_length_nonneg t).
  rewrite js_length_app.
  replace (JS.length pre + JS.length t - JS.length t) with (JS.length pre)
    by lia.
  destruct (Z.ltb_spec (JS.length pre) 0); [lia |].
  rewrite <- js_length_app.
  fold (JS.substring_from (pre +:+ t) (JS.length pre)).
  rewrite js_substring_from_app. apply String.eqb_refl.
Qed.

Lemma endsWith_inv (s t : string) :
  JS.endsWith s t = true -> exists pre, s = pre +:+ t.
Proof.
  unfold JS.endsWith. intros H.
  destruct (Z.ltb_spec (JS.length s - JS.length t) 0); [done |].
  apply String.eqb_eq in H.
  pose proof (js_length_nonneg t).
  rewrite js_substring_range in H by lia.
  exists (String.substring 0 (String.length s - String.length t) s).
  etransitivity;
    [apply (substring_split s (String.length s - String.length t)); lia |].
  f_equal. etransitivity; [| exact H].
  unfold JS.length in *. f_equal; lia.
Qed.

Lemma endsWith_iff (s t : string) :
  JS.endsWith s t = true <-> exists pre, s = pre +:+ t.
Proof.
  split; [apply endsWith_inv | intros [pre ->]; apply endsWith_app].
Qed.

(** *** [replace] of a leading occurrence *)

Lemma indexOf_unfold (s p : string) :
  JS.indexOf s p
  = if String.prefix p s then 0
    else match s with
         | EmptyString => -1
         | String _ s' =>
             if JS.indexOf s' p <? 0 then -1 else JS.indexOf s' p + 1
         end.
Proof. by destruct s. Qed.

Lemma indexOf_prefix (p r : string) : JS.indexOf (p +:+ r) p = 0.
Proof. by rewrite indexOf_unfold, prefix_app. Qed.


(** *** [lastIndexOf] and the directory part of a path *)

Lemma lastIndexOf_at_bounds (s : string) (c : ascii) (i found : Z) :
  found < i ->
  found <= JS.lastIndexOf_at s c i found < i + JS.length s.
Proof.
  revert i found. induction s as [|x s IH]; intros i found Hlt; simpl.
  - unfold JS.length. simpl. lia.
  - unfold JS.length in *. simpl String.length. rewrite Nat2Z.inj_succ.
    destruct (Ascii.eqb x c).
    + specialize (IH (i + 1) i). lia.
    + specialize (IH (i + 1) found). lia.
Qed.

Lemma lastIndexOf_bounds (s : string) (c : ascii) :
  -1 <= JS.lastIndexOf s c < JS.length s.
Proof.
  pose proof (lastIndexOf_at_bounds s c 0 (-1)). unfold JS.lastIndexOf.
  lia.
Qed.

(** The text before the last occurrence of a character is strictly
    shorter than a non-empty string, whether the character occurs or
    not. *)
Lemma before_last_shorter (s : string) (c : ascii) :
  s <> "" ->
  (String.length (JS.substring s 0 (JS.lastIndexOf s c))
   < String.length s)%nat.
Proof.
  intros Hs. pose proof (lastIndexOf_bounds s c) as Hb.
  assert (0 < JS.length s) as Hlen.
  { destruct s; [done |]. unfold JS.length. simpl. lia. }
  unfold JS.substring, JS.clamp.
  replace (Z.max 0 (Z.min 0 (JS.length s))) with 0 by lia.
  rewrite Z.min_l, Z.max_r, Z.sub_0_r by lia.
  eapply Nat.le_lt_trans; [apply length_substring_le |].
  unfold JS.length in *. lia.
Qed.

Lemma before_last_neq (s : string) (c : ascii) :
  s <> "" -> JS.substring s 0 (JS.lastIndexOf s c) <> s.
Proof.
  intros Hs Heq. pose proof (before_last_shorter s c Hs) as Hlt.
  rewrite Heq in Hlt. lia.
Qed.

(** *** Splitting a path at its separators *)

Lemma class_free_app (cls : ascii -> bool) (a b : string) :
  class_free cls (a +:+ b) = class_free cls a && class_free cls b.
Proof.
  induction a as [|x a IH]; simpl; [done |].
  rewrite IH. by destruct (cls x).
Qed.

Lemma split_nonempty (cls : ascii -> bool) (s : string) :
  JS.split cls s <> [].
Proof.
  destruct s as [|c s]; simpl; [done |].
  destruct (cls c); [done |]. by destruct (JS.split cls s).
Qed.

Lemma split_class_free (cls : ascii -> bool) (s : string) :
  class_free cls s = true -> JS.split cls s = [s].
Proof.
  induction s as [|c s IH]; simpl; [done |].
  destruct (cls c); simpl; [done |]. intros H. by rewrite IH.
Qed.

Lemma split_app_sep (cls : ascii -> bool) (a b : string) (c : ascii) :
  cls c = true ->
  JS.split cls (a +:+ String c b) = JS.split cls a ++ JS.split cls b.
Proof.
  intros Hc. induction a as [|x a IH]; simpl.
  - by rewrite Hc.
  - rewrite IH. destruct (cls x); [done |].
    pose proof (split_nonempty cls a).
    by destruct (JS.split cls a).
Qed.

(** The file name computed by [split(...).pop() || ''] is the text after
    the last separator. *)
Lemma fileName_class_free (b : string) :
  class_free JS.is_sep b = true ->
  JS.or_empty (JS.pop (JS.split JS.is_sep b)) = b.
Proof. intros H. by rewrite split_class_free. Qed.

Lemma fileName_after_sep (dir b : string) (c : ascii) :
  JS.is_sep c = true -> class_free JS.is_sep b = true ->
  JS.or_empty (JS.pop (JS.split JS.is_sep (dir +:+ String c b))) = b.
Proof.
  intros Hc Hb. rewrite split_app_sep by done.
  rewrite (split_class_free _ b Hb). unfold JS.pop.
  by rewrite last_snoc.
Qed.

Lemma path_decomposition (s : string) :
  class_free JS.is_sep s = true \/
  exists dir c b,
    s = dir +:+ String c b /\ JS.is_sep c = true
    /\ class_free JS.is_sep b = true.
Proof.
  induction s as [|x s IH]; [by left |].
  destruct IH as [Hfree | (dir & c & b & -> & Hc & Hb)].
  - simpl. destruct (JS.is_sep x) eqn:Hx; [right | by left].
    by exists "", x, s.
  - right. by exists (String x dir), c, b.
Qed.

Lemma string_app_eq_app (a b c d : string) :
  a +:+ b = c +:+ d ->
  exists l, (a = c +:+ l /\ d = l +:+ b) \/ (c = a +:+ l /\ b = l +:+ d).
Proof.
  revert c. induction a as [|x a IH]; intros c H; simpl in H.
  - exists c. by right.
  - destruct c as [|y c]; simpl in H.
    + exists (String x a). left. by subst d.
    + injection H as -> H. destruct (IH _ H) as [l [[-> ->] | [-> ->]]];
        exists l; [by left | by right].
Qed.

(** A suffix that contains no separator lies within the file name. *)
Lemma endsWith_after_sep (dir b t : string) (c : ascii) :
  JS.is_sep c = true -> class_free JS.is_sep t = true ->
  JS.endsWith (dir +:+ String c b) t = JS.endsWith b t.
Proof.
  intros Hc Ht. apply Bool.eq_true_iff_eq. rewrite !endsWith_iff.
  split.
  - intros [pre H]. symmetry in H.
    destruct (string_app_eq_app _ _ _ _ H) as [l [[-> Hb] | [-> Hb]]].
    + destruct l as [|y l]; simpl in Hb.
      * subst t. simpl in Ht. by rewrite Hc in Ht.
      * injection Hb as -> ->. by exists l.
    + subst t. rewrite class_free_app in Ht. simpl in Ht.
      rewrite Hc in Ht. by destruct (class_free JS.is_sep l).
  - intros [pre ->]. exists (dir +:+ String c pre).
    by rewrite string_app_assoc.
Qed.

End JSFacts.

(** ** The Go generators *)

Module GolangFacts.
Import JSFacts Golang.

(** The file name that [goDefaultConfig] computes. *)
Lemma fileName_of_basename (filePath b : string) :
  class_free JS.is_sep b = true -> has_basename filePath b ->
  JS.or_empty (JS.pop (JS.split JS.is_sep filePath)) = b.
Proof.
  intros Hb [-> | (dir & c & Hc & ->)].
  - by apply fileName_class_free.
  - by apply fileName_after_sep.
Qed.

Lemma basename_of_fileName (filePath : string) :
  has_basename filePath
    (JS.or_empty (JS.pop (JS.split JS.is_sep filePath))).
Proof.
  destruct (path_decomposition filePath)
    as [Hfree | (dir & c & b & -> & Hc & Hb)].
  - rewrite fileName_class_free by done. by left.
  - rewrite fileName_after_sep by done. right. by exists dir, c.
Qed.

Lemma has_basename_iff (filePath b : string) :
  class_free JS.is_sep b = true ->
  has_basename filePath b
  <-> JS.or_empty (JS.pop (JS.split JS.is_sep filePath)) = b.
Proof.
  intros Hb. split; [by apply fileName_of_basename |].
  intros <-. apply basename_of_fileName.
Qed.

Lemma endsWith_fileName (filePath t : string) :
  class_free JS.is_sep t = true ->
  JS.endsWith (JS.or_empty (JS.pop (JS.split JS.is_sep filePath))) t
  = JS.endsWith filePath t.
Proof.
  intros Ht. destruct (path_decomposition filePath)
    as [Hfree | (dir & c & b & -> & Hc & Hb)].
  - by rewrite fileName_class_free.
  - by rewrite fileName_after_sep, endsWith_after_sep.
Qed.

(** The guard [dirPath === filePath] holds for the empty path only:
    without a separator [lastIndexOf] is [-1] and [substring(0, -1)] is
    the empty string, not the whole path. *)
Lemma no_separator_guard (filePath : string) :
  String.eqb (JS.substring filePath 0 (JS.lastIndexOf filePath "/"))
    filePath = true
  <-> filePath = "".
Proof.
  rewrite String.eqb_eq. split; [| by intros ->].
  intros H. destruct (String.string_dec filePath "") as [| Hne]; [done |].
  by destruct (before_last_neq filePath "/" Hne).
Qed.

Lemma getFileDirectoryPath_under_root (workspaceRoot rest : string) :
  workspaceRoot <> "" ->
  getFileDirectoryPath (workspaceRoot +:+ rest) workspaceRoot
  = let relativePath := JS.strip_leading JS.is_slash rest in
    let relativeDirPath :=
      JS.substring relativePath 0 (JS.lastIndexOf relativePath "/") in
    if truthy relativeDirPath then "${workspaceFolder}/" +:+ relativeDirPath
    else "${workspaceFolder}".
Proof.
  intros Hroot. unfold getFileDirectoryPath.
  destruct (String.eqb _ (workspaceRoot +:+ rest)) eqn:Hguard.
  - apply no_separator_guard in Hguard.
    destruct workspaceRoot; [done | discriminate].
  - unfold JS.startsWith. rewrite prefix_app, js_substring_from_app.
    unfold truthy at 1. apply String.eqb_neq in Hroot.
    by rewrite Hroot.
Qed.

(** C4: for a symbol in a file ending in [_test.go] whose name starts
    with [Test], [Benchmark] or [Example], the configuration built by the
    debug factory of either Go framework has mode ["test"], and its
    arguments are [-test.run], the anchored pattern [^name$] and
    [-test.v]. *)
Theorem go_test_symbol_config (symbol : SymbolInfo)
    (fw : LanguageFramework) :
  In fw (frameworks golangModule) ->
  (exists pre, sym_filePath symbol = pre +:+ "_test.go") ->
  (exists rest, sym_name symbol = "Test" +:+ rest
                \/ sym_name symbol = "Benchmark" +:+ rest
                \/ sym_name symbol = "Example" +:+ rest) ->
  let cfg := fw_debugConfig fw symbol in
  cfg_mode cfg = Some "test"
  /\ cfg_args cfg
     = Some ["-test.run"; "^" +:+ sym_name symbol +:+ "$"; "-test.v"]
  /\ exists args,
       cfg_args cfg = Some args
       /\ In "-test.run" args
       /\ In ("^" +:+ sym_name symbol +:+ "$") args
       /\ In "-test.v" args.
Proof.
  intros Hfw Hfile [rest Hname] cfg.
  assert (isGoTestFunction symbol = true) as Htest.
  { unfold isGoTestFunction. apply endsWith_iff in Hfile.
    rewrite Hfile. simpl andb. unfold JS.startsWith.
    destruct Hname as [-> | [-> | ->]];
      rewrite prefix_app, ?orb_true_r; done. }
  assert (cfg = generateGoDebugConfig symbol) as ->.
  { subst cfg. simpl in Hfw. by destruct Hfw as [<- | [<- | []]]. }
  unfold generateGoDebugConfig. rewrite Htest. simpl.
  split_and!; [done | done |]. eexists. split; [done |]. simpl. tauto.
Qed.

Lemma go_test_symbol_config_witness :
  let symbol :=
    {| sym_name := "TestAddition"; sym_path := ["TestAddition"];
       sym_kind := 12; sym_language := "go";
       sym_filePath := "/workspace/math_test.go";
       sym_workspaceRoot := "/workspace" |} in
  cfg_mode (fw_debugConfig go_test symbol) = Some "test"
  /\ cfg_args (fw_debugConfig go_test symbol)
     = Some ["-test.run"; "^TestAddition$"; "-test.v"].
Proof.
  intros symbol.
  destruct (go_test_symbol_config symbol go_test) as (Hmode & Hargs & _).
  - simpl. by left.
  - by exists "/workspace/math".
  - exists "Addition". by left.
  - split; [exact Hmode | exact Hargs].
Defined.

(** C6: the directory resolution at a path without a [/] separator that
    is outside the workspace returns the empty string, neither the
    [${workspaceFolder}] token nor the directory of the file; and a path
    that merely shares a textual prefix with the workspace root is
    rendered as if it were inside it. *)
Theorem getFileDirectoryPath_no_separator :
  getFileDirectoryPath "C:\src\main.go" "D:\proj" = ""
  /\ getFileDirectoryPath "main.go" "/workspace" = ""
  /\ getFileDirectoryPath "/workspace2/a/b.go" "/workspace"
     = "${workspaceFolder}/2/a".
Proof. by vm_compute. Qed.

Lemma main_go_not_test (filePath : string) :
  has_basename filePath "main.go" ->
  ~ (exists pre, filePath = pre +:+ "_test.go").
Proof.
  intros Hmain Hsuffix. apply endsWith_iff in Hsuffix.
  rewrite <- (endsWith_fileName filePath "_test.go") in Hsuffix by done.
  rewrite (fileName_of_basename filePath "main.go") in Hsuffix by done.
  discriminate.
Qed.

(** C10: the default factory of the Go module classifies by file name;
    [type] is ["go"] and [request] is [launch] in every branch. *)
Theorem goDefaultConfig_by_file_name (filePath workspaceRoot : string) :
  let cfg := goDefaultConfig filePath workspaceRoot in
  cfg_type cfg = "go" /\ cfg_request cfg = launch
  /\ (has_basename filePath "main.go" ->
      cfg_mode cfg = Some "debug" /\ cfg_program cfg = Some "${file}")
  /\ ((exists pre, filePath = pre +:+ "_test.go") ->
      cfg_mode cfg = Some "test"
      /\ cfg_program cfg
         = Some (getFileDirectoryPath filePath workspaceRoot)
      /\ cfg_args cfg = Some ["-test.v"])
  /\ (~ has_basename filePath "main.go" ->
      ~ (exists pre, filePath = pre +:+ "_test.go") ->
      cfg_mode cfg = Some "auto"
      /\ cfg_program cfg
         = Some (getFileDirectoryPath filePath workspaceRoot)).
Proof.
  intros cfg. subst cfg. unfold goDefaultConfig.
  rewrite (endsWith_fileName filePath "_test.go") by done.
  destruct (String.eqb_spec
              (JS.or_empty (JS.pop (JS.split JS.is_sep filePath)))
              "main.go") as [Hmain | Hmain].
  - apply has_basename_iff in Hmain; [| done].
    pose proof (main_go_not_test _ Hmain) as Hexcl.
    split_and!; try done; intros; try done; by destruct Hexcl.
  - assert (~ has_basename filePath "main.go") as Hnot.
    { intros Hb. apply Hmain. by apply fileName_of_basename. }
    destruct (JS.endsWith filePath "_test.go") eqn:Hsuffix.
    + apply endsWith_iff in Hsuffix. split_and!; try done.
    + assert (~ (exists pre, filePath = pre +:+ "_test.go")) as Hno.
      { intros H. apply endsWith_iff in H. congruence. }
      split_and!; try done.
Qed.

Lemma goDefaultConfig_by_file_name_witness :
  cfg_mode (goDefaultConfig "/workspace/main.go" "/workspace")
    = Some "debug"
  /\ cfg_mode (goDefaultConfig "/workspace/math_test.go" "/workspace")
     = Some "test"
  /\ cfg_mode (goDefaultConfig "/workspace/utils.go" "/workspace")
     = Some "auto".
Proof.
  split; [| split].
  - destruct (goDefaultConfig_by_file_name "/workspace/main.go"
                "/workspace") as (_ & _ & Hmain & _).
    apply Hmain. right. by exists "/workspace", "/"%char.
  - destruct (goDefaultConfig_by_file_name "/workspace/math_test.go"
                "/workspace") as (_ & _ & _ & Htest & _).
    apply Htest. by exists "/workspace/math".
  - destruct (goDefaultConfig_by_file_name "/workspace/utils.go"
                "/workspace") as (_ & _ & _ & _ & Hother).
    apply Hother.
    + intros Hb. apply has_basename_iff in Hb; [| done].
      vm_compute in Hb. discriminate.
    + intros Hs. apply endsWith_iff in Hs. vm_compute in Hs.
      discriminate.
Defined.

End GolangFacts.

(** ** Workspace-relative program paths *)

Module PathSpec.
Import JSFacts GolangFacts.








End PathSpec.

(** ** The sort by descending key *)

Module SortFacts.
Section ByKey.
Context {A : Type} (key : A -> Z).

Lemma sort_insert_Permutation (x : A) (l : list A) :
  Permutation (JS.sort_insert (compare_desc key) x l) (x :: l).
Proof.
  induction l as [|y l IH]; simpl; [done |].
  destruct (0 <? compare_desc key x y); [| done].
  rewrite IH. apply perm_swap.
Qed.

Lemma sort_Permutation (l : list A) :
  Permutation (JS.sort (compare_desc key) l) l.
Proof.
  induction l as [|x l IH]; simpl; [done |].
  by rewrite sort_insert_Permutation, IH.
Qed.

Lemma sort_insert_sorted (x : A) (l : list A) :
  StronglySorted (desc key) l ->
  StronglySorted (desc key) (JS.sort_insert (compare_desc key) x l).
Proof.
  induction 1 as [|y l Hl IH Hy]; simpl.
  - repeat constructor.
  - destruct (Z.ltb_spec 0 (compare_desc key x y)) as [Hlt | Hge].
    + constructor; [exact IH |].
      rewrite sort_insert_Permutation. constructor; [| exact Hy].
      unfold desc, compare_desc in *. lia.
    + constructor; [by constructor |].
      assert (desc key x y) as Hxy by (unfold desc, compare_desc in *; lia).
      constructor; [exact Hxy |].
      eapply Forall_impl; [exact Hy |].
      unfold desc in *. intros. simpl in *. lia.
Qed.

Lemma sort_sorted (l : list A) :
  StronglySorted (desc key) (JS.sort (compare_desc key) l).
Proof.
  induction l as [|x l IH]; simpl; [constructor |].
  by apply sort_insert_sorted.
Qed.

(** An array already in descending order is left as it is. *)
Lemma sort_sorted_id (l : list A) :
  StronglySorted (desc key) l -> JS.sort (compare_desc key) l = l.
Proof.
  induction 1 as [|x l Hl IH Hx]; simpl; [done |].
  rewrite IH. destruct l as [|y l]; simpl; [done |].
  apply Forall_inv in Hx.
  destruct (Z.ltb_spec 0 (compare_desc key x y)); [| done].
  unfold desc, compare_desc in *. lia.
Qed.

(** Stability: elements of equal key keep their relative order. *)
Lemma sort_insert_stable (k : Z) (x : A) (l : list A) :
  List.filter (fun a => key a =? k) (JS.sort_insert (compare_desc key) x l)
  = List.filter (fun a => key a =? k) (x :: l).
Proof.
  induction l as [|y l IH]; [done |].
  simpl JS.sort_insert.
  destruct (Z.ltb_spec 0 (compare_desc key x y)) as [Hlt | Hge]; [| done].
  simpl in *. rewrite IH.
  destruct (Z.eqb_spec (key x) k), (Z.eqb_spec (key y) k); try done.
  unfold compare_desc in Hlt. lia.
Qed.

Lemma sort_stable (k : Z) (l : list A) :
  List.filter (fun a => key a =? k) (JS.sort (compare_desc key) l)
  = List.filter (fun a => key a =? k) l.
Proof.
  induction l as [|x l IH]; [done |].
  simpl JS.sort. rewrite sort_insert_stable. simpl. by rewrite IH.
Qed.

(** The first element of a descending array that satisfies a test has
    the greatest key among those that do. *)
Lemma find_sorted_max (P : A -> bool) (l : list A) (f : A) :
  StronglySorted (desc key) l -> List.find P l = Some f ->
  forall g, In g l -> P g = true -> key g <= key f.
Proof.
  induction 1 as [|x l Hl IH Hx]; simpl; [done |].
  destruct (P x) eqn:HPx.
  - intros [= <-] g [<- | Hg] _; [lia |].
    rewrite Forall_forall in Hx. by apply Hx, list_elem_of_In.
  - intros Hfind g [<- | Hg] HPg; [congruence |]. by apply IH.
Qed.

Lemma find_is_Some (P : A -> bool) (l : list A) (g : A) :
  In g l -> P g = true -> exists f, List.find P l = Some f.
Proof.
  intros Hg HPg. destruct (List.find P l) as [f|] eqn:Hfind; [eauto |].
  pose proof (find_none P l Hfind g Hg). congruence.
Qed.
End ByKey.
End SortFacts.

(** ** The registry *)


Module RegistryFacts.
Import Registry SortFacts.

(** *** What the monadic loops compute *)

Lemma matchesPatterns_run (vscode : Vscode) (patterns : list string)
    (modules : Registry) :
  matchesPatterns vscode patterns modules
  = (Returned (existsb (pattern_hits vscode) patterns), modules).
Proof.
  induction patterns as [|pattern rest IH]; [done |].
  simpl. unfold bind, try_catch, await, pattern_hits.
  destruct (findFiles vscode pattern) as [[|file files] | e]; simpl;
    try exact IH; done.
Qed.

Lemma firstMatch_run (vscode : Vscode) (symbol : SymbolInfo)
    (fws : list LanguageFramework) (modules : Registry) :
  firstMatch vscode symbol fws modules
  = (Returned (List.find (framework_present vscode) fws), modules).
Proof.
  induction fws as [|fw rest IH]; [done |].
  simpl. unfold bind, matchesFramework. rewrite matchesPatterns_run.
  fold (framework_present vscode fw).
  by destruct (framework_present vscode fw).
Qed.

Lemma detectFramework_run (vscode : Vscode) (symbol : SymbolInfo)
    (modules : Registry) :
  detectFramework vscode symbol modules
  = match modules !! sym_language symbol with
    | None => (Returned None, modules)
    | Some module =>
        let sorted := JS.sort by_priority_desc (frameworks module) in
        (Returned (List.find (framework_present vscode) sorted),
         <[sym_language symbol := with_frameworks module sorted]> modules)
    end.
Proof.
  unfold detectFramework, bind, getModule.
  destruct (modules !! sym_language symbol) as [module|]; [| done].
  unfold sort_frameworks. by rewrite firstMatch_run.
Qed.

Lemma generateDebugConfig_run (vscode : Vscode) (symbol : SymbolInfo)
    (modules : Registry) :
  generateDebugConfig vscode symbol modules
  = match modules !! sym_language symbol with
    | None =>
        (Thrown (Error ("No module registered for language: "
                        +:+ sym_language symbol)), modules)
    | Some module =>
        let sorted := JS.sort by_priority_desc (frameworks module) in
        (Returned
           match List.find (framework_present vscode) sorted with
           | Some fw => fw_debugConfig fw symbol
           | None => defaultConfig module (sym_filePath symbol)
                       (sym_workspaceRoot symbol)
           end,
         <[sym_language symbol := with_frameworks module sorted]> modules)
    end.
Proof.
  unfold generateDebugConfig, bind at 1, getModule.
  destruct (modules !! sym_language symbol) as [module|] eqn:Hmod;
    [| done].
  unfold bind. rewrite detectFramework_run, Hmod. simpl.
  by destruct (List.find _ _).
Qed.

Lemma generateTestConfig_run (vscode : Vscode) (symbol : SymbolInfo)
    (modules : Registry) :
  generateTestConfig vscode symbol modules
  = match modules !! sym_language symbol with
    | None => (Returned None, modules)
    | Some module =>
        let sorted := JS.sort by_priority_desc (frameworks module) in
        (Returned
           match List.find (framework_present vscode) sorted with
           | Some fw =>
               match fw_testConfig fw with
               | Some testConfig => Some (testConfig symbol)
               | None => None
               end
           | None => None
           end,
         <[sym_language symbol := with_frameworks module sorted]> modules)
    end.
Proof.
  unfold generateTestConfig, bind. rewrite detectFramework_run.
  destruct (modules !! sym_language symbol) as [module|]; [| done].
  simpl. destruct (List.find _ _) as [fw|]; [| done].
  by destruct (fw_testConfig fw).
Qed.

(** The entries of the singleton registry. *)
Lemma languageRegistry_go (vscode : Vscode) :
  languageRegistry vscode !! "go" = Some Golang.golangModule.
Proof.
  unfold languageRegistry, registerDefaultModules, bind, register.
  cbn [snd language Javascript.javascriptModule Golang.golangModule].
  rewrite lookup_insert_ne by done. apply lookup_insert_eq.
Qed.

Lemma languageRegistry_languages (vscode : Vscode) (lang : string) :
  lang <> "python" -> lang <> "go" -> lang <> "javascript" ->
  languageRegistry vscode !! lang = None.
Proof.
  intros Hpy Hgo Hjs.
  unfold languageRegistry, registerDefaultModules, bind, register.
  cbn [snd language Javascript.javascriptModule Golang.golangModule
       Python.pythonModule].
  by rewrite !lookup_insert_ne, lookup_empty.
Qed.

Lemma pattern_hits_without_failures (vscode : Vscode) (pattern : string) :
  pattern_hits (without_probe_failures vscode) pattern
  = pattern_hits vscode pattern.
Proof.
  unfold pattern_hits. simpl. by destruct (findFiles vscode pattern).
Qed.

Lemma framework_present_without_failures (vscode : Vscode)
    (fw : LanguageFramework) :
  framework_present (without_probe_failures vscode) fw
  = framework_present vscode fw.
Proof.
  unfold framework_present.
  induction (fw_filePatterns fw) as [|p ps IH]; [done |].
  simpl. by rewrite pattern_hits_without_failures, IH.
Qed.

Lemma find_present_without_failures (vscode : Vscode)
    (fws : list LanguageFramework) :
  List.find (framework_present (without_probe_failures vscode)) fws
  = List.find (framework_present vscode) fws.
Proof.
  induction fws as [|fw rest IH]; [done |].
  simpl. by rewrite framework_present_without_failures, IH.
Qed.

Lemma sort_frameworks_Permutation (fws : list LanguageFramework) :
  Permutation (JS.sort by_priority_desc fws) fws.
Proof. exact (sort_Permutation fw_priority fws). Qed.

Lemma sort_frameworks_sorted (fws : list LanguageFramework) :
  StronglySorted (desc fw_priority) (JS.sort by_priority_desc fws).
Proof. exact (sort_sorted fw_priority fws). Qed.

(** A module whose frameworks are declared in descending priority, as
    those of the three bundled modules are, is not changed by detection. *)
Lemma detectFramework_keeps_descending (vscode : Vscode)
    (symbol : SymbolInfo) (modules : Registry) (module : LanguageModule) :
  modules !! sym_language symbol = Some module ->
  StronglySorted (desc fw_priority) (frameworks module) ->
  modules_after (detectFramework vscode symbol modules) = modules.
Proof.
  intros Hmod Hsorted. rewrite detectFramework_run, Hmod. simpl.
  unfold modules_after. simpl.
  change by_priority_desc with (compare_desc fw_priority).
  rewrite sort_sorted_id by done.
  apply insert_id. rewrite Hmod. by destruct module.
Qed.

(** In every case detection leaves the same frameworks in the module,
    possibly in another order. *)
Lemma detectFramework_frameworks_Permutation (vscode : Vscode)
    (symbol : SymbolInfo) (modules : Registry) (module : LanguageModule) :
  modules !! sym_language symbol = Some module ->
  exists module',
    modules_after (detectFramework vscode symbol modules)
      !! sym_language symbol = Some module'
    /\ Permutation (frameworks module') (frameworks module).
Proof.
  intros Hmod. rewrite detectFramework_run, Hmod.
  eexists. unfold modules_after. simpl.
  split; [apply lookup_insert_eq |]. apply sort_frameworks_Permutation.
Qed.

End RegistryFacts.

Module RegistrySpec.
Import Registry SortFacts RegistryFacts Examples.

(** C1 (amended): for a symbol whose language has no registered module,
    [generateDebugConfig] throws the error ["No module registered for
    language: <language>"] and leaves the registry as it was, while
    [generateTestConfig] returns [null]: it only consults
    [detectFramework], which answers [null] for an unknown language. *)
Theorem unregistered_language (vscode : Vscode) (symbol : SymbolInfo)
    (modules : Registry) :
  modules !! sym_language symbol = None ->
  generateDebugConfig vscode symbol modules
  = (Thrown (Error ("No module registered for language: "
                    +:+ sym_language symbol)), modules)
  /\ generateTestConfig vscode symbol modules = (Returned None, modules).
Proof.
  intros Hnone. split.
  - by rewrite generateDebugConfig_run, Hnone.
  - by rewrite generateTestConfig_run, Hnone.
Qed.

Lemma unregistered_language_witness :
  generateDebugConfig empty_workspace rust_symbol
    (languageRegistry empty_workspace)
  = (Thrown (Error "No module registered for language: rust"),
     languageRegistry empty_workspace)
  /\ generateTestConfig empty_workspace rust_symbol
       (languageRegistry empty_workspace)
     = (Returned None, languageRegistry empty_workspace).
Proof.
  apply (unregistered_language empty_workspace rust_symbol
           (languageRegistry empty_workspace)).
  by apply languageRegistry_languages.
Defined.

(** C1 as stated fails: [generateTestConfig] for a symbol of an
    unregistered language returns [null] and throws nothing. *)
Lemma generateTestConfig_unregistered_returns_null :
  languageRegistry empty_workspace !! sym_language rust_symbol = None
  /\ result (generateTestConfig empty_workspace rust_symbol
               (languageRegistry empty_workspace)) = Returned None
  /\ forall e,
       result (generateTestConfig empty_workspace rust_symbol
                 (languageRegistry empty_workspace)) <> Thrown e.
Proof.
  assert (languageRegistry empty_workspace !! sym_language rust_symbol
          = None) as Hnone by (by apply languageRegistry_languages).
  rewrite generateTestConfig_run, Hnone. split_and!; done.
Qed.

(** C2: when two frameworks of the registered module are both present in
    the workspace, [detectFramework] returns a present framework of the
    greatest priority, hence never the one of strictly lower priority;
    when the module holds just these two, it returns the one of higher
    priority.  The module's list is arbitrary, so the order in which the
    frameworks were supplied plays no part. *)
Theorem detectFramework_prefers_higher_priority (vscode : Vscode)
    (symbol : SymbolInfo) (modules : Registry) (module : LanguageModule)
    (f1 f2 : LanguageFramework) :
  modules !! sym_language symbol = Some module ->
  In f1 (frameworks module) -> In f2 (frameworks module) ->
  framework_present vscode f1 = true ->
  framework_present vscode f2 = true ->
  fw_priority f2 < fw_priority f1 ->
  exists f,
    result (detectFramework vscode symbol modules) = Returned (Some f)
    /\ In f (frameworks module)
    /\ framework_present vscode f = true
    /\ fw_priority f2 < fw_priority f
    /\ (forall g, In g (frameworks module) ->
                  framework_present vscode g = true ->
                  fw_priority g <= fw_priority f)
    /\ (Permutation (frameworks module) [f1; f2] -> f = f1).
Proof.
  intros Hmod Hf1 Hf2 Hp1 Hp2 Hlt.
  rewrite detectFramework_run, Hmod. simpl.
  pose proof (sort_frameworks_Permutation (frameworks module)) as Hperm.
  pose proof (sort_frameworks_sorted (frameworks module)) as Hsorted.
  assert (forall g, In g (frameworks module) ->
                    In g (JS.sort by_priority_desc (frameworks module)))
    as Hin.
  { intros g Hg. eapply Permutation_in; [symmetry; exact Hperm | done]. }
  destruct (find_is_Some (framework_present vscode) _ f1 (Hin _ Hf1) Hp1)
    as [f Hfind].
  pose proof (find_sorted_max fw_priority _ _ f Hsorted Hfind) as Hmax.
  apply find_some in Hfind as Hf. destruct Hf as [Hf Hpf].
  assert (In f (frameworks module)) as Hfm
    by (eapply Permutation_in; [exact Hperm | done]).
  assert (fw_priority f1 <= fw_priority f) as Hle by (apply Hmax; auto).
  exists f. unfold result. simpl. rewrite Hfind.
  split_and!; [done | done | done | lia | by auto |].
  intros Htwo. eapply Permutation_in in Hfm; [| exact Htwo].
  destruct Hfm as [<- | [<- | []]]; [done | lia].
Qed.

Lemma detectFramework_prefers_higher_priority_witness :
  exists f,
    result (detectFramework full_workspace TestAddition
              (modules_after (register ascending_go_module ∅)))
    = Returned (Some f)
    /\ f = Golang.go_test.
Proof.
  destruct (detectFramework_prefers_higher_priority full_workspace
              TestAddition (modules_after (register ascending_go_module ∅))
              ascending_go_module Golang.go_test Golang.go_main)
    as (f & Hres & _ & _ & _ & _ & Htwo).
  - apply lookup_insert_eq.
  - simpl. tauto.
  - simpl. tauto.
  - reflexivity.
  - reflexivity.
  - reflexivity.
  - exists f. split; [exact Hres |]. apply Htwo. simpl. apply perm_swap.
Defined.

(** C3: when the language is registered and none of the module's
    frameworks is present in the workspace, [generateDebugConfig] returns
    normally, with exactly the module's [defaultConfig(filePath,
    workspaceRoot)]. *)
Theorem generateDebugConfig_default (vscode : Vscode)
    (symbol : SymbolInfo) (modules : Registry) (module : LanguageModule) :
  modules !! sym_language symbol = Some module ->
  (forall fw, In fw (frameworks module) ->
              framework_present vscode fw = false) ->
  result (generateDebugConfig vscode symbol modules)
  = Returned (defaultConfig module (sym_filePath symbol)
                (sym_workspaceRoot symbol)).
Proof.
  intros Hmod Habsent. rewrite generateDebugConfig_run, Hmod.
  unfold result. simpl.
  destruct (List.find _ _) as [fw|] eqn:Hfind; [| done].
  apply find_some in Hfind as [Hfw Hpresent].
  eapply Permutation_in in Hfw; [| apply sort_frameworks_Permutation].
  rewrite (Habsent fw Hfw) in Hpresent. discriminate.
Qed.

Lemma generateDebugConfig_default_witness :
  result (generateDebugConfig empty_workspace TestAddition
            (languageRegistry empty_workspace))
  = Returned (Golang.goDefaultConfig "/workspace/math_test.go"
                "/workspace").
Proof.
  apply (generateDebugConfig_default empty_workspace TestAddition
           (languageRegistry empty_workspace) Golang.golangModule).
  - apply languageRegistry_go.
  - intros fw [<- | [<- | []]]; reflexivity.
Defined.

(** C7: a probe that fails counts as a pattern that did not match.  The
    loop over a framework's patterns goes on with the remaining ones;
    [matchesFramework] and [detectFramework] behave exactly as in the
    host where every failing probe finds nothing instead; and
    [detectFramework] returns normally, whatever the probes do. *)
Theorem probe_failure_is_a_miss (vscode : Vscode) (symbol : SymbolInfo)
    (modules : Registry) :
  (forall pattern rest e,
      findFiles vscode pattern = Rejected e ->
      matchesPatterns vscode (pattern :: rest) modules
      = matchesPatterns vscode rest modules)
  /\ (forall fw,
        matchesFramework vscode symbol fw modules
        = matchesFramework (without_probe_failures vscode) symbol fw
            modules)
  /\ detectFramework vscode symbol modules
     = detectFramework (without_probe_failures vscode) symbol modules
  /\ exists found,
       result (detectFramework vscode symbol modules) = Returned found.
Proof.
  split_and!.
  - intros pattern rest e He. simpl.
    unfold bind at 1, try_catch, bind, await. by rewrite He.
  - intros fw. unfold matchesFramework. rewrite !matchesPatterns_run.
    fold (framework_present vscode fw)
         (framework_present (without_probe_failures vscode) fw).
    by rewrite framework_present_without_failures.
  - rewrite !detectFramework_run.
    destruct (modules !! sym_language symbol); [| done].
    simpl. by rewrite find_present_without_failures.
  - rewrite detectFramework_run.
    destruct (modules !! sym_language symbol); by eexists.
Qed.

Lemma probe_failure_is_a_miss_witness :
  matchesPatterns main_only_workspace ["go.sum"; "**/main.go"] ∅
  = matchesPatterns main_only_workspace ["**/main.go"] ∅.
Proof.
  apply (proj1 (probe_failure_is_a_miss main_only_workspace TestAddition ∅)
           "go.sum" ["**/main.go"] (Error "search failed")).
  reflexivity.
Defined.

(** C8: [generateTestConfig] returns [null], and throws nothing, when
    [detectFramework] finds no framework and when the framework it finds
    has no [testConfig] factory. *)
Theorem generateTestConfig_absent (vscode : Vscode) (symbol : SymbolInfo)
    (modules : Registry) :
  (result (detectFramework vscode symbol modules) = Returned None
   \/ exists fw,
        result (detectFramework vscode symbol modules) = Returned (Some fw)
        /\ fw_testConfig fw = None) ->
  result (generateTestConfig vscode symbol modules) = Returned None.
Proof.
  unfold generateTestConfig, bind, result.
  destruct (detectFramework vscode symbol modules) as [[[fw|]|e] modules'];
    simpl.
  - intros [[=] | (fw' & [= <-] & Hnone)]. by rewrite Hnone.
  - done.
  - by intros [[=] | (fw' & [=] & _)].
Qed.

(** The two cases at the bundled Go module: a workspace in which only
    [go-main] is detected, and an empty workspace. *)
Lemma generateTestConfig_absent_witness :
  result (detectFramework main_only_workspace TestAddition
            (languageRegistry main_only_workspace))
  = Returned (Some Golang.go_main)
  /\ result (generateTestConfig main_only_workspace TestAddition
               (languageRegistry main_only_workspace)) = Returned None
  /\ result (generateTestConfig empty_workspace TestAddition
               (languageRegistry empty_workspace)) = Returned None.
Proof.
  split; [reflexivity |]. split.
  - apply (generateTestConfig_absent main_only_workspace TestAddition
             (languageRegistry main_only_workspace)).
    right. exists Golang.go_main. split; reflexivity.
  - apply (generateTestConfig_absent empty_workspace TestAddition
             (languageRegistry empty_workspace)).
    left. reflexivity.
Defined.

(** C9: detection and [getFrameworkInfo] sort the registered module's own
    [frameworks] array.  A Go module registered with [go-main] listed
    before [go-test] holds them in the opposite order after either
    call, in every workspace. *)
Theorem registry_reorders_frameworks (vscode : Vscode) :
  let before := modules_after (register ascending_go_module ∅) in
  let detected :=
    modules_after (detectFramework vscode TestAddition before) in
  let listed := modules_after (getFrameworkInfo "go" before) in
  (map fw_name ∘ frameworks) <$> before !! "go"
    = Some ["go-main"; "go-test"]
  /\ (map fw_name ∘ frameworks) <$> detected !! "go"
     = Some ["go-test"; "go-main"]
  /\ (map fw_name ∘ frameworks) <$> listed !! "go"
     = Some ["go-test"; "go-main"]
  /\ detected <> before /\ listed <> before.
Proof.
  intros before detected listed.
  assert (before !! "go" = Some ascending_go_module) as Hbefore
    by apply lookup_insert_eq.
  assert ((map fw_name ∘ frameworks) <$> detected !! "go"
          = Some ["go-test"; "go-main"]) as Hdetected.
  { subst detected. rewrite detectFramework_run. simpl sym_language.
    rewrite Hbefore. unfold modules_after. simpl snd.
    by rewrite lookup_insert_eq. }
  assert ((map fw_name ∘ frameworks) <$> listed !! "go"
          = Some ["go-test"; "go-main"]) as Hlisted.
  { subst listed. unfold getFrameworkInfo, bind, getModule.
    rewrite Hbefore. unfold modules_after. simpl snd.
    by rewrite lookup_insert_eq. }
  split; [by rewrite Hbefore |].
  split; [exact Hdetected |]. split; [exact Hlisted |]. split.
  - intros Heq. rewrite Heq, Hbefore in Hdetected. discriminate.
  - intros Heq. rewrite Heq, Hbefore in Hlisted. discriminate.
Qed.

End RegistrySpec.


(** ** More on the Go generators *)

Module GolangExtra.
Import JSFacts GolangFacts Golang.

Lemma lastIndexOf_at_app (a b : string) (c : ascii) (i found : Z) :
  JS.lastIndexOf_at (a +:+ b) c i found
  = JS.lastIndexOf_at b c (i + JS.length a) (JS.lastIndexOf_at a c i found).
Proof.
  revert i found. induction a as [|x a IH]; intros i found; simpl.
  - unfold JS.length. simpl. by rewrite Z.add_0_r.
  - rewrite IH. f_equal. unfold JS.length. simpl String.length. lia.
Qed.

Lemma lastIndexOf_at_slash_free (s : string) (i found : Z) :
  class_free JS.is_slash s = true ->
  JS.lastIndexOf_at s "/" i found = found.
Proof.
  revert i found. induction s as [|x s IH]; intros i found; simpl; [done |].
  unfold JS.is_slash at 1. destruct (Ascii.eqb x "/"); simpl; [done |].
  apply IH.
Qed.

Lemma lastIndexOf_dir_file (dir file : string) :
  class_free JS.is_slash file = true ->
  JS.lastIndexOf (dir +:+ "/" +:+ file) "/" = JS.length dir.
Proof.
  intros Hfile. unfold JS.lastIndexOf. rewrite lastIndexOf_at_app. simpl.
  by rewrite lastIndexOf_at_slash_free.
Qed.

Lemma js_substring_0_app (a b : string) :
  JS.substring (a +:+ b) 0 (JS.length a) = a.
Proof.
  pose proof (js_length_nonneg a). pose proof (js_length_nonneg b).
  rewrite js_substring_range by (rewrite ?js_length_app; lia).
  rewrite Z.sub_0_r. unfold JS.length. rewrite Nat2Z.id. simpl.
  apply substring_0_app.
Qed.

Lemma dir_neq_path (dir file : string) : dir <> dir +:+ "/" +:+ file.
Proof.
  intros H. apply (f_equal String.length) in H.
  rewrite string_length_app in H. simpl in H. lia.
Qed.

(** X15: a path with a [/] that is not inside the workspace (no workspace
    root, or the path does not start with it) resolves to the text before
    its last [/]. *)
Theorem getFileDirectoryPath_outside_workspace
    (dir file workspaceRoot : string) :
  class_free JS.is_slash file = true ->
  workspaceRoot = ""
  \/ JS.startsWith (dir +:+ "/" +:+ file) workspaceRoot = false ->
  getFileDirectoryPath (dir +:+ "/" +:+ file) workspaceRoot = dir.
Proof.
  intros Hfile Hout. unfold getFileDirectoryPath.
  rewrite lastIndexOf_dir_file, js_substring_0_app by done.
  pose proof (dir_neq_path dir file) as Hne.
  apply String.eqb_neq in Hne. rewrite Hne.
  destruct Hout as [-> | ->]; [done |]. by rewrite andb_false_r.
Qed.

Lemma getFileDirectoryPath_outside_workspace_witness :
  getFileDirectoryPath "/other/pkg/util.go" "/workspace" = "/other/pkg".
Proof.
  apply (getFileDirectoryPath_outside_workspace "/other/pkg" "util.go"
           "/workspace").
  - reflexivity.
  - right. reflexivity.
Defined.

(** X16: inside a non-empty workspace root, a file directly below the
    root resolves to the [${workspaceFolder}] token, and a file in a
    directory below the root to the token, a [/] and that directory. *)
Theorem getFileDirectoryPath_inside_workspace
    (workspaceRoot file : string) :
  workspaceRoot <> "" -> class_free JS.is_slash file = true ->
  getFileDirectoryPath (workspaceRoot +:+ "/" +:+ file) workspaceRoot
  = "${workspaceFolder}"
  /\ forall dir,
       dir <> "" ->
       getFileDirectoryPath
         (workspaceRoot +:+ "/" +:+ dir +:+ "/" +:+ file) workspaceRoot
       = "${workspaceFolder}/" +:+ dir.
Proof.
  intros Hroot Hfile. split.
  - rewrite getFileDirectoryPath_under_root by done. simpl.
    unfold JS.lastIndexOf. rewrite lastIndexOf_at_slash_free by done.
    by rewrite js_substring_0_nonpos.
  - intros dir Hdir. rewrite getFileDirectoryPath_under_root by done.
    simpl. pose proof (lastIndexOf_dir_file dir file Hfile) as Hlast.
    simpl in Hlast. rewrite Hlast, js_substring_0_app.
    unfold truthy. apply String.eqb_neq in Hdir. by rewrite Hdir.
Qed.

Lemma getFileDirectoryPath_inside_workspace_witness :
  getFileDirectoryPath "/workspace/math_test.go" "/workspace"
  = "${workspaceFolder}"
  /\ getFileDirectoryPath "/workspace/pkg/calc/math_test.go" "/workspace"
     = "${workspaceFolder}/pkg/calc".
Proof.
  destruct (getFileDirectoryPath_inside_workspace "/workspace"
              "math_test.go") as [Htop Hdir]; [done | reflexivity |].
  split; [exact Htop |]. apply (Hdir "pkg/calc"). done.
Defined.

(** The two classifiers, read as propositions. *)
Lemma isGoTestFunction_iff (symbol : SymbolInfo) :
  isGoTestFunction symbol = true
  <-> (exists pre, sym_filePath symbol = pre +:+ "_test.go")
      /\ (exists rest, sym_name symbol = "Test" +:+ rest
                       \/ sym_name symbol = "Benchmark" +:+ rest
                       \/ sym_name symbol = "Example" +:+ rest).
Proof.
  unfold isGoTestFunction.
  rewrite andb_true_iff, !orb_true_iff, endsWith_iff, !startsWith_iff.
  split.
  - intros [Hfile [[[rest H] | [rest H]] | [rest H]]];
      (split; [done |]); exists rest; tauto.
  - intros [Hfile [rest [H | [H | H]]]]; (split; [done |]); eauto.
Qed.

Lemma isGoMainFunction_iff (symbol : SymbolInfo) :
  isGoMainFunction symbol = true
  <-> sym_name symbol = "main" /\ In "main" (sym_path symbol).
Proof.
  unfold isGoMainFunction, JS.array_includes.
  rewrite andb_true_iff, String.eqb_eq, existsb_exists. split.
  - intros [Hname (x & Hx & Heq)]. apply String.eqb_eq in Heq. by subst x.
  - intros [Hname Hin]. split; [done |]. exists "main". split; [done |].
    apply String.eqb_refl.
Qed.

Lemma main_is_not_a_test (symbol : SymbolInfo) :
  sym_name symbol = "main" -> isGoTestFunction symbol = false.
Proof.
  intros Hname. unfold isGoTestFunction. rewrite Hname.
  apply andb_false_r.
Qed.

(** X13: a symbol named [main] whose path contains [main] gets mode
    ["debug"], the resolved directory as program and no arguments,
    whatever its file is called. *)
Theorem go_main_symbol_config (symbol : SymbolInfo) :
  sym_name symbol = "main" -> In "main" (sym_path symbol) ->
  let cfg := generateGoDebugConfig symbol in
  cfg_mode cfg = Some "debug"
  /\ cfg_program cfg
     = Some (getFileDirectoryPath (sym_filePath symbol)
               (sym_workspaceRoot symbol))
  /\ cfg_args cfg = None.
Proof.
  intros Hname Hpath cfg. subst cfg. unfold generateGoDebugConfig.
  rewrite (main_is_not_a_test symbol Hname).
  assert (isGoMainFunction symbol = true) as ->
    by (by apply isGoMainFunction_iff).
  done.
Qed.

Lemma go_main_symbol_config_witness :
  cfg_mode (generateGoDebugConfig MoreExamples.main_symbol) = Some "debug"
  /\ cfg_program (generateGoDebugConfig MoreExamples.main_symbol)
     = Some "${workspaceFolder}/cmd/app"
  /\ cfg_args (generateGoDebugConfig MoreExamples.main_symbol) = None.
Proof.
  apply (go_main_symbol_config MoreExamples.main_symbol).
  - reflexivity.
  - simpl. tauto.
Defined.

(** X14: every configuration of [generateGoDebugConfig] has type ["go"],
    request [launch], the resolved directory as program and the Go
    environment; its mode is ["test"] exactly for a test symbol,
    ["debug"] exactly for a [main] symbol and ["auto"] otherwise, and it
    carries arguments exactly in mode ["test"]. *)
Theorem generateGoDebugConfig_modes (symbol : SymbolInfo) :
  let cfg := generateGoDebugConfig symbol in
  let is_test :=
    (exists pre, sym_filePath symbol = pre +:+ "_test.go")
    /\ (exists rest, sym_name symbol = "Test" +:+ rest
                     \/ sym_name symbol = "Benchmark" +:+ rest
                     \/ sym_name symbol = "Example" +:+ rest) in
  let is_main := sym_name symbol = "main" /\ In "main" (sym_path symbol) in
  cfg_type cfg = "go" /\ cfg_request cfg = launch
  /\ cfg_program cfg
     = Some (getFileDirectoryPath (sym_filePath symbol)
               (sym_workspaceRoot symbol))
  /\ cfg_env cfg
     = Some [("GOPATH", "${workspaceFolder}"); ("GO111MODULE", "on")]
  /\ (cfg_mode cfg = Some "test" <-> is_test)
  /\ (cfg_mode cfg = Some "debug" <-> is_main)
  /\ (cfg_mode cfg = Some "auto" <-> ~ is_test /\ ~ is_main)
  /\ (cfg_args cfg <> None <-> cfg_mode cfg = Some "test").
Proof.
  intros cfg is_test is_main. subst cfg is_test is_main.
  rewrite <- isGoTestFunction_iff, <- isGoMainFunction_iff.
  unfold generateGoDebugConfig.
  destruct (isGoTestFunction symbol) eqn:Htest.
  - assert (isGoMainFunction symbol = false) as Hmain.
    { destruct (isGoMainFunction symbol) eqn:Hmain; [| done].
      apply isGoMainFunction_iff in Hmain as [Hname _].
      rewrite (main_is_not_a_test symbol Hname) in Htest. discriminate. }
    rewrite Hmain. simpl. split_and!; try done; split; try done.
    intros [H _]. congruence.
  - destruct (isGoMainFunction symbol); simpl;
      split_and!; try done; split; try done.
    intros [_ H]. congruence.
Qed.

(** X17: the test command of [go-test] runs in the directory that the
    debug configuration launches, names it as its last argument, and
    filters with [-run ^name$] exactly when the debug configuration is in
    mode ["test"]. *)
Theorem go_test_testConfig_matches_debugConfig (symbol : SymbolInfo) :
  exists testConfig,
    fw_testConfig go_test = Some testConfig
    /\ let tc := testConfig symbol in
       let cfg := fw_debugConfig go_test symbol in
       let dir := getFileDirectoryPath (sym_filePath symbol)
                    (sym_workspaceRoot symbol) in
       tc_cwd tc = cfg_program cfg
       /\ last (tc_args tc) = cfg_program cfg
       /\ (cfg_mode cfg = Some "test" ->
           tc_args tc = ["-run"; "^" +:+ sym_name symbol +:+ "$"; "-v"; dir]
           /\ cfg_args cfg
              = Some ["-test.run"; "^" +:+ sym_name symbol +:+ "$";
                      "-test.v"])
       /\ (cfg_mode cfg <> Some "test" -> tc_args tc = ["-v"; dir]).
Proof.
  eexists. split; [reflexivity |]. simpl.
  unfold generateGoDebugConfig.
  destruct (isGoTestFunction symbol); [| destruct (isGoMainFunction symbol)];
    simpl; split_and!; try done; intros H; try done; by destruct H.
Qed.

Lemma go_test_testConfig_matches_debugConfig_witness :
  exists testConfig,
    fw_testConfig go_test = Some testConfig
    /\ tc_args (testConfig Examples.TestAddition)
       = ["-run"; "^TestAddition$"; "-v"; "${workspaceFolder}"]
    /\ tc_args (testConfig MoreExamples.main_symbol)
       = ["-v"; "${workspaceFolder}/cmd/app"].
Proof.
  destruct (go_test_testConfig_matches_debugConfig Examples.TestAddition)
    as (tc1 & Htc1 & _ & _ & Htest & _).
  destruct (go_test_testConfig_matches_debugConfig MoreExamples.main_symbol)
    as (tc2 & Htc2 & _ & _ & _ & Hother).
  exists tc1. split; [exact Htc1 |]. split.
  - apply Htest. reflexivity.
  - assert (tc2 = tc1) as <- by congruence.
    apply Hother. discriminate.
Defined.

End GolangExtra.

(** ** More on the registry *)

Module RegistryExtra.
Import Registry SortFacts RegistryFacts Examples.

Lemma find_filter {A : Type} (P Q : A -> bool) (l : list A) (f : A) :
  List.find P l = Some f -> Q f = true ->
  List.find P (List.filter Q l) = Some f.
Proof.
  induction l as [|x l IH]; simpl; [done |].
  destruct (P x) eqn:HPx.
  - intros [= ->] HQ. rewrite HQ. simpl. by rewrite HPx.
  - intros Hfind HQ. destruct (Q x); simpl; rewrite ?HPx; by apply IH.
Qed.

Lemma find_filter_and {A : Type} (P Q : A -> bool) (l : list A) :
  List.find P (List.filter Q l) = List.find (fun x => P x && Q x) l.
Proof.
  induction l as [|x l IH]; simpl; [done |].
  destruct (Q x); simpl; rewrite ?andb_true_r, ?andb_false_r, IH; done.
Qed.

Lemma StronglySorted_info (fws : list LanguageFramework) :
  StronglySorted (desc fw_priority) fws ->
  StronglySorted (fun a b : string * Z => snd b <= snd a)
    (map (fun fw => (fw_name fw, fw_priority fw)) fws).
Proof.
  induction 1 as [|fw fws Hs IH Hfw]; simpl; constructor; [done |].
  rewrite Forall_forall in Hfw. apply Forall_forall.
  intros info Hinfo. apply list_elem_of_In, in_map_iff in Hinfo.
  destruct Hinfo as (g & <- & Hg). simpl. by apply Hfw, list_elem_of_In.
Qed.

(** The state that the four methods leave behind. *)
Lemma detectFramework_state (vscode : Vscode) (symbol : SymbolInfo)
    (modules : Registry) :
  modules_after (detectFramework vscode symbol modules)
  = after_sort (sym_language symbol) modules.
Proof.
  rewrite detectFramework_run. unfold after_sort.
  by destruct (modules !! sym_language symbol).
Qed.

Lemma generateDebugConfig_state (vscode : Vscode) (symbol : SymbolInfo)
    (modules : Registry) :
  modules_after (generateDebugConfig vscode symbol modules)
  = after_sort (sym_language symbol) modules.
Proof.
  rewrite generateDebugConfig_run. unfold after_sort.
  by destruct (modules !! sym_language symbol).
Qed.

Lemma generateTestConfig_state (vscode : Vscode) (symbol : SymbolInfo)
    (modules : Registry) :
  modules_after (generateTestConfig vscode symbol modules)
  = after_sort (sym_language symbol) modules.
Proof.
  rewrite generateTestConfig_run. unfold after_sort.
  by destruct (modules !! sym_language symbol).
Qed.

Lemma getFrameworkInfo_run (lang : string) (modules : Registry) :
  getFrameworkInfo lang modules
  = (Returned
       match modules !! lang with
       | Some module =>
           map (fun fw => (fw_name fw, fw_priority fw))
             (JS.sort by_priority_desc (frameworks module))
       | None => []
       end,
     after_sort lang modules).
Proof.
  unfold getFrameworkInfo, bind, getModule, after_sort.
  by destruct (modules !! lang).
Qed.

Lemma same_module_refl (m : LanguageModule) : same_module_up_to_order m m.
Proof. by unfold same_module_up_to_order. Qed.

Lemma after_sort_same (lang : string) (modules : Registry) :
  same_registry_up_to_order modules (after_sort lang modules).
Proof.
  intros lang'. unfold after_sort.
  destruct (modules !! lang) as [module|] eqn:Hmod.
  - destruct (decide (lang = lang')) as [<- | Hne].
    + rewrite Hmod, lookup_insert_eq. unfold same_module_up_to_order.
      simpl. split_and!; try done. apply sort_frameworks_Permutation.
    + rewrite lookup_insert_ne by done.
      destruct (modules !! lang'); [apply same_module_refl | done].
  - destruct (modules !! lang'); [apply same_module_refl | done].
Qed.

Lemma after_sort_idempotent (lang : string) (modules : Registry) :
  after_sort lang (after_sort lang modules) = after_sort lang modules.
Proof.
  unfold after_sort at 2. destruct (modules !! lang) as [module|] eqn:Hmod.
  - unfold after_sort. rewrite lookup_insert_eq. simpl.
    change by_priority_desc with (compare_desc fw_priority).
    rewrite (sort_sorted_id fw_priority
               (JS.sort (compare_desc fw_priority) (frameworks module)))
      by apply sort_sorted.
    by rewrite insert_insert_eq, Hmod.
  - unfold after_sort. by rewrite Hmod.
Qed.

(** X1: after [register(module)], [getModule] under the module's language
    returns that module; every other language is as before; and a later
    registration under the same language replaces it without a trace. *)
Theorem register_getModule (module : LanguageModule) (modules : Registry) :
  let after := modules_after (register module modules) in
  result (getModule (language module) after) = Returned (Some module)
  /\ (forall lang,
        lang <> language module ->
        result (getModule lang after) = result (getModule lang modules))
  /\ (forall module',
        language module' = language module ->
        modules_after (register module' after)
        = modules_after (register module' modules)).
Proof.
  intros after. subst after. unfold register, getModule, result,
    modules_after. simpl. split_and!.
  - by rewrite lookup_insert_eq.
  - intros lang Hne. by rewrite lookup_insert_ne.
  - intros module' ->. by rewrite insert_insert_eq.
Qed.

Lemma register_getModule_witness :
  result (getModule "rust"
            (modules_after (register Golang.golangModule ∅)))
  = result (getModule "rust" ∅)
  /\ modules_after
       (register ascending_go_module
          (modules_after (register Golang.golangModule ∅)))
     = modules_after (register ascending_go_module ∅).
Proof.
  destruct (register_getModule Golang.golangModule ∅) as (_ & Hother & Hre).
  split.
  - apply Hother. discriminate.
  - apply Hre. reflexivity.
Defined.

(** X2: after [unregister(language)], [getModule(language)] is
    [undefined] and every other language is as before; unregistering a
    language that is not registered changes nothing; and unregistering
    right after registering a module of a new language restores the
    registry. *)
Theorem unregister_getModule (lang : string) (modules : Registry) :
  let after := modules_after (unregister lang modules) in
  result (getModule lang after) = Returned None
  /\ (forall lang',
        lang' <> lang ->
        result (getModule lang' after) = result (getModule lang' modules))
  /\ (modules !! lang = None -> after = modules)
  /\ (forall module,
        language module = lang -> modules !! lang = None ->
        modules_after (unregister lang
                         (modules_after (register module modules)))
        = modules).
Proof.
  intros after. subst after. unfold register, unregister, getModule, result,
    modules_after. simpl. split_and!.
  - by rewrite lookup_delete_eq.
  - intros lang' Hne. by rewrite lookup_delete_ne.
  - apply delete_id.
  - intros module -> Hnone. rewrite delete_insert_eq. by apply delete_id.
Qed.

Lemma unregister_getModule_witness :
  result (getModule "python"
            (modules_after
               (unregister "go" (languageRegistry empty_workspace))))
  = result (getModule "python" (languageRegistry empty_workspace))
  /\ modules_after (unregister "rust" (languageRegistry empty_workspace))
     = languageRegistry empty_workspace
  /\ modules_after
       (unregister "go" (modules_after (register Golang.golangModule ∅)))
     = ∅.
Proof.
  destruct (unregister_getModule "go" (languageRegistry empty_workspace))
    as (_ & Hother & _).
  destruct (unregister_getModule "rust" (languageRegistry empty_workspace))
    as (_ & _ & Habsent & _).
  destruct (unregister_getModule "go" ∅) as (_ & _ & _ & Hundo).
  split_and!.
  - apply Hother. discriminate.
  - apply Habsent. by apply languageRegistry_languages.
  - apply (Hundo Golang.golangModule); [reflexivity | apply lookup_empty].
Defined.

(** X7: for a registered language, [detectFramework] returns [null]
    exactly when no framework of the module is present in the workspace,
    and a framework it returns belongs to the module and is present. *)
Theorem detectFramework_sound_and_complete (vscode : Vscode)
    (symbol : SymbolInfo) (modules : Registry) (module : LanguageModule) :
  modules !! sym_language symbol = Some module ->
  (result (detectFramework vscode symbol modules) = Returned None
   <-> forall fw, In fw (frameworks module) ->
                  framework_present vscode fw = false)
  /\ (forall f,
        result (detectFramework vscode symbol modules) = Returned (Some f) ->
        In f (frameworks module) /\ framework_present vscode f = true).
Proof.
  intros Hmod. rewrite detectFramework_run, Hmod. unfold result. simpl.
  pose proof (sort_frameworks_Permutation (frameworks module)) as Hperm.
  split; [split |].
  - intros [= Hfind] fw Hfw. eapply find_none; [exact Hfind |].
    eapply Permutation_in; [symmetry; exact Hperm | done].
  - intros Habsent.
    destruct (List.find _ _) as [f|] eqn:Hfind; [| done].
    apply find_some in Hfind as [Hf Hpresent].
    eapply Permutation_in in Hf; [| exact Hperm].
    rewrite (Habsent f Hf) in Hpresent. discriminate.
  - intros f [= Hfind]. apply find_some in Hfind as [Hf Hpresent].
    split; [| done]. eapply Permutation_in; [exact Hperm | done].
Qed.

Lemma detectFramework_sound_and_complete_witness :
  result (detectFramework empty_workspace TestAddition
            (languageRegistry empty_workspace)) = Returned None.
Proof.
  destruct (detectFramework_sound_and_complete empty_workspace TestAddition
              (languageRegistry empty_workspace) Golang.golangModule)
    as [[_ Hnull] _].
  - apply languageRegistry_go.
  - apply Hnull. intros fw [<- | [<- | []]]; reflexivity.
Defined.

(** X8: among the present frameworks of the priority that wins,
    [detectFramework] returns the one listed first in the module: the
    sort is stable, so a tie is broken by the order of declaration. *)
Theorem detectFramework_tie_break (vscode : Vscode) (symbol : SymbolInfo)
    (modules : Registry) (module : LanguageModule) (f : LanguageFramework) :
  modules !! sym_language symbol = Some module ->
  result (detectFramework vscode symbol modules) = Returned (Some f) ->
  List.find
    (fun g => framework_present vscode g
              && (fw_priority g =? fw_priority f))
    (frameworks module)
  = Some f.
Proof.
  intros Hmod. rewrite detectFramework_run, Hmod. unfold result. simpl.
  intros [= Hfind].
  apply (find_filter _ (fun g => fw_priority g =? fw_priority f)) in Hfind;
    [| apply Z.eqb_refl].
  change by_priority_desc with (compare_desc fw_priority) in Hfind.
  rewrite (sort_stable fw_priority) in Hfind.
  by rewrite find_filter_and in Hfind.
Qed.

Lemma detectFramework_tie_break_witness :
  result (detectFramework MoreExamples.tied_workspace TestAddition
            (modules_after (register MoreExamples.tied_module ∅)))
  = Returned (Some (MoreExamples.marker "first" "a.cfg" 5))
  /\ List.find
       (fun g => framework_present MoreExamples.tied_workspace g
                 && (fw_priority g =? 5))
       (frameworks MoreExamples.tied_module)
     = Some (MoreExamples.marker "first" "a.cfg" 5).
Proof.
  assert (result (detectFramework MoreExamples.tied_workspace TestAddition
                    (modules_after (register MoreExamples.tied_module ∅)))
          = Returned (Some (MoreExamples.marker "first" "a.cfg" 5)))
    as Hres by reflexivity.
  split; [exact Hres |].
  apply (detectFramework_tie_break MoreExamples.tied_workspace TestAddition
           (modules_after (register MoreExamples.tied_module ∅))
           MoreExamples.tied_module
           (MoreExamples.marker "first" "a.cfg" 5)).
  - apply lookup_insert_eq.
  - exact Hres.
Defined.

(** X9: detection is idempotent: a second [detectFramework] for the same
    symbol in the same workspace returns the same framework and leaves
    the registry as the first call left it; and after one detection no
    later detection for that language, in whatever workspace, changes the
    registry again. *)
Theorem detectFramework_idempotent (vscode : Vscode) (symbol : SymbolInfo)
    (modules : Registry) :
  let first := detectFramework vscode symbol modules in
  detectFramework vscode symbol (modules_after first) = first
  /\ forall vscode' symbol',
       sym_language symbol' = sym_language symbol ->
       modules_after (detectFramework vscode' symbol' (modules_after first))
       = modules_after first.
Proof.
  intros first. subst first. split.
  - rewrite detectFramework_state.
    rewrite (detectFramework_run vscode symbol
               (after_sort (sym_language symbol) modules)).
    rewrite detectFramework_run. unfold after_sort.
    destruct (modules !! sym_language symbol) as [module|] eqn:Hmod.
    + rewrite lookup_insert_eq. simpl.
      change by_priority_desc with (compare_desc fw_priority).
      rewrite (sort_sorted_id fw_priority
                 (JS.sort (compare_desc fw_priority) (frameworks module)))
        by apply sort_sorted.
      by rewrite insert_insert_eq.
    + by rewrite Hmod.
  - intros vscode' symbol' Hlang.
    rewrite !detectFramework_state, Hlang. apply after_sort_idempotent.
Qed.

Lemma detectFramework_idempotent_witness :
  modules_after
    (detectFramework empty_workspace TestAddition
       (modules_after
          (detectFramework full_workspace TestAddition
             (modules_after (register ascending_go_module ∅)))))
  = modules_after
      (detectFramework full_workspace TestAddition
         (modules_after (register ascending_go_module ∅))).
Proof.
  destruct (detectFramework_idempotent full_workspace TestAddition
              (modules_after (register ascending_go_module ∅)))
    as [_ Hstate].
  apply (Hstate empty_workspace TestAddition). reflexivity.
Defined.

(** X10: [detectFramework], [generateDebugConfig], [generateTestConfig]
    and [getFrameworkInfo] never add or remove a language, a module or a
    framework, and never change a module's fields: the registry they
    leave holds the same modules up to the order of their frameworks. *)
Theorem registry_preserved_up_to_order (vscode : Vscode)
    (symbol : SymbolInfo) (lang : string) (modules : Registry) :
  same_registry_up_to_order modules
    (modules_after (detectFramework vscode symbol modules))
  /\ same_registry_up_to_order modules
       (modules_after (generateDebugConfig vscode symbol modules))
  /\ same_registry_up_to_order modules
       (modules_after (generateTestConfig vscode symbol modules))
  /\ same_registry_up_to_order modules
       (modules_after (getFrameworkInfo lang modules)).
Proof.
  rewrite detectFramework_state, generateDebugConfig_state,
    generateTestConfig_state, getFrameworkInfo_run.
  split_and!; apply after_sort_same.
Qed.

(** X11: [getFrameworkInfo] lists the name and priority of every
    framework of the module, each once, in descending priority; for a
    language without module it returns the empty list. *)
Theorem getFrameworkInfo_sorted (lang : string) (modules : Registry) :
  exists info,
    result (getFrameworkInfo lang modules) = Returned info
    /\ StronglySorted (fun a b : string * Z => snd b <= snd a) info
    /\ match modules !! lang with
       | Some module =>
           Permutation info
             (map (fun fw => (fw_name fw, fw_priority fw))
                (frameworks module))
       | None => info = []
       end.
Proof.
  rewrite getFrameworkInfo_run. eexists. split; [reflexivity |].
  destruct (modules !! lang) as [module|].
  - split.
    + apply StronglySorted_info, sort_frameworks_sorted.
    + apply Permutation_map, sort_frameworks_Permutation.
  - split; [constructor | done].
Qed.

End RegistryExtra.

(** ** The module map in insertion order *)

Module OrderedRegistryFacts.
Import OrderedRegistry.

Lemma map_set_keys_present (key : string) (value : LanguageModule)
    (entries : Modules) :
  In key (map fst entries) ->
  map fst (map_set key value entries) = map fst entries.
Proof.
  induction entries as [|[k v] rest IH]; simpl; [done |].
  destruct (String.eqb_spec k key) as [-> | Hne]; [done |].
  intros [Heq | Hin]; [done |]. simpl. by rewrite IH.
Qed.

Lemma map_set_keys_absent (key : string) (value : LanguageModule)
    (entries : Modules) :
  ~ In key (map fst entries) ->
  map fst (map_set key value entries) = map fst entries ++ [key].
Proof.
  induction entries as [|[k v] rest IH]; simpl; [done |].
  intros Hnot. destruct (String.eqb_spec k key) as [-> | Hne]; [tauto |].
  simpl. rewrite IH; [done | tauto].
Qed.

Lemma map_delete_keys (key : string) (entries : Modules) :
  NoDup (map fst entries) ->
  map fst (map_delete key entries)
  = List.filter (fun k => negb (String.eqb k key)) (map fst entries).
Proof.
  induction entries as [|[k v] rest IH]; simpl; [done |].
  intros Hnodup. apply NoDup_cons in Hnodup as [Hk Hrest].
  destruct (String.eqb_spec k key) as [-> | Hne]; simpl.
  - clear IH. induction rest as [|[k' v'] rest IH]; simpl; [done |].
    apply not_elem_of_cons in Hk as [Hne Hk]. simpl in Hne.
    apply NoDup_cons in Hrest as [_ Hrest].
    destruct (String.eqb_spec k' key) as [-> | _]; [done |].
    simpl. by rewrite <- IH.
  - by rewrite IH.
Qed.

Lemma map_get_lookup (key : string) (entries : Modules) :
  map_get key entries = module_map entries !! key.
Proof.
  unfold map_get, module_map.
  induction entries as [|[k v] rest IH]; simpl; [done |].
  destruct (String.eqb_spec k key) as [-> | Hne]; simpl.
  - by rewrite lookup_insert_eq.
  - by rewrite lookup_insert_ne.
Qed.

Lemma module_map_set (key : string) (value : LanguageModule)
    (entries : Modules) :
  module_map (map_set key value entries) = <[key := value]> (module_map entries).
Proof.
  unfold module_map.
  induction entries as [|[k v] rest IH]; simpl; [done |].
  destruct (String.eqb_spec k key) as [-> | Hne]; simpl.
  - by rewrite insert_insert_eq.
  - rewrite IH. by apply insert_insert_ne.
Qed.

Lemma module_map_delete (key : string) (entries : Modules) :
  NoDup (map fst entries) ->
  module_map (map_delete key entries) = delete key (module_map entries).
Proof.
  unfold module_map.
  induction entries as [|[k v] rest IH]; simpl.
  - intros _. by rewrite delete_empty.
  - intros Hnodup. apply NoDup_cons in Hnodup as [Hk Hrest].
    destruct (String.eqb_spec k key) as [-> | Hne]; simpl.
    + rewrite delete_insert_eq. symmetry. apply delete_id.
      by apply not_elem_of_list_to_map_1.
    + rewrite delete_insert_ne by done. by rewrite IH.
Qed.

Lemma array_includes_iff (a : list string) (x : string) :
  JS.array_includes a x = true <-> In x a.
Proof.
  unfold JS.array_includes. rewrite existsb_exists. split.
  - intros (y & Hy & Heq). apply String.eqb_eq in Heq. by subst y.
  - intros Hx. exists x. split; [done | apply String.eqb_refl].
Qed.

Lemma find_first_match {A : Type} (P : A -> bool) (before after : list A)
    (x : A) :
  (forall y, In y before -> P y = false) -> P x = true ->
  List.find P (before ++ x :: after) = Some x.
Proof.
  intros Hbefore Hx. induction before as [|y before IH]; simpl.
  - by rewrite Hx.
  - rewrite (Hbefore y) by (by left). apply IH.
    intros z Hz. apply Hbefore. by right.
Qed.

(** X3: the ordered module map and the finite map agree: [register],
    [unregister] (on a map without duplicate keys) and [getModule]
    commute with the view [module_map], and the default modules
    registered in order give the singleton registry. *)
Theorem ordered_registry_refines (vscode : Vscode)
    (module : LanguageModule) (lang : string) (entries : Modules) :
  module_map (register module entries)
  = modules_after (Registry.register module (module_map entries))
  /\ (NoDup (getSupportedLanguages entries) ->
      module_map (unregister lang entries)
      = modules_after (Registry.unregister lang (module_map entries)))
  /\ Returned (getModule lang entries)
     = result (Registry.getModule lang (module_map entries))
  /\ module_map (registerDefaultModules vscode [])
     = languageRegistry vscode.
Proof.
  split_and!.
  - apply module_map_set.
  - apply module_map_delete.
  - unfold getModule, Registry.getModule, result. simpl.
    by rewrite map_get_lookup.
  - unfold registerDefaultModules, register.
    by rewrite !module_map_set.
Qed.

Lemma ordered_registry_refines_witness :
  module_map (unregister "go" (registerDefaultModules Examples.empty_workspace []))
  = modules_after
      (Registry.unregister "go"
         (module_map (registerDefaultModules Examples.empty_workspace []))).
Proof.
  destruct (ordered_registry_refines Examples.empty_workspace
              Golang.golangModule "go"
              (registerDefaultModules Examples.empty_workspace []))
    as (_ & Hdelete & _).
  apply Hdelete. simpl. compute_done.
Defined.

(** X4: [register] and [unregister] keep the module map free of duplicate
    languages and every module stored under its own language; on such a
    map the supported languages are the languages of the modules of
    [getAllModules], in the same order, and a language is supported
    exactly when [getModule] finds a module for it. *)
Theorem supported_languages_invariant (module : LanguageModule)
    (lang : string) (entries : Modules) :
  NoDup (getSupportedLanguages entries) -> keyed_by_language entries ->
  NoDup (getSupportedLanguages (register module entries))
  /\ keyed_by_language (register module entries)
  /\ NoDup (getSupportedLanguages (unregister lang entries))
  /\ keyed_by_language (unregister lang entries)
  /\ getSupportedLanguages entries = map language (getAllModules entries)
  /\ (In lang (getSupportedLanguages entries)
      <-> exists m, getModule lang entries = Some m /\ language m = lang).
Proof.
  unfold getSupportedLanguages, getAllModules, register, unregister,
    getModule, keyed_by_language.
  intros Hnodup Hkeyed. split_and!.
  - destruct (in_dec String.string_dec (language module) (map fst entries))
      as [Hin | Hnot].
    + by rewrite map_set_keys_present.
    + rewrite map_set_keys_absent by done. apply NoDup_app.
      split_and!; [done | | apply NoDup_singleton].
      intros k Hk Hk'. apply list_elem_of_singleton in Hk' as ->.
      by apply Hnot, list_elem_of_In.
  - clear Hnodup. induction Hkeyed as [|[k v] rest Hk Hrest IH]; simpl.
    + by repeat constructor.
    + destruct (String.eqb_spec k (language module)); by constructor.
  - rewrite map_delete_keys by done.
    by apply NoDup_ListNoDup, List.NoDup_filter, NoDup_ListNoDup.
  - clear Hnodup. induction Hkeyed as [|[k v] rest Hk Hrest IH]; simpl.
    + constructor.
    + destruct (String.eqb_spec k lang); [done | by constructor].
  - clear Hnodup. induction Hkeyed as [|[k v] rest Hk Hrest IH]; simpl;
      [done |]. simpl in Hk. by rewrite Hk, <- IH.
  - clear Hnodup. unfold map_get.
    induction Hkeyed as [|[k v] rest Hk Hrest IH]; simpl.
    + split; [done | by intros (m & [=] & _)].
    + simpl in Hk. destruct (String.eqb_spec k lang) as [-> | Hne]; simpl.
      * split; [| tauto]. intros _. by exists v.
      * rewrite <- IH. tauto.
Qed.

Lemma supported_languages_invariant_witness :
  getSupportedLanguages
    (unregister "go" (registerDefaultModules Examples.empty_workspace []))
  = ["python"; "javascript"]
  /\ NoDup (getSupportedLanguages
              (register Golang.golangModule
                 (registerDefaultModules Examples.empty_workspace []))).
Proof.
  split; [reflexivity |].
  apply (supported_languages_invariant Golang.golangModule "go"
           (registerDefaultModules Examples.empty_workspace [])).
  - simpl. compute_done.
  - unfold keyed_by_language. simpl. by repeat constructor.
Defined.

(** X5: registering a module under a language that is already supported
    keeps the order of the supported languages, a new language goes to
    the end, and [unregister] removes its language from the list and
    nothing else. *)
Theorem supported_languages_order (module : LanguageModule) (lang : string)
    (entries : Modules) :
  (In (language module) (getSupportedLanguages entries) ->
   getSupportedLanguages (register module entries)
   = getSupportedLanguages entries)
  /\ (~ In (language module) (getSupportedLanguages entries) ->
      getSupportedLanguages (register module entries)
      = getSupportedLanguages entries ++ [language module])
  /\ (NoDup (getSupportedLanguages entries) ->
      getSupportedLanguages (unregister lang entries)
      = List.filter (fun k => negb (String.eqb k lang))
          (getSupportedLanguages entries)).
Proof.
  unfold getSupportedLanguages, register, unregister. split_and!.
  - apply map_set_keys_present.
  - apply map_set_keys_absent.
  - apply map_delete_keys.
Qed.

Lemma supported_languages_order_witness :
  getSupportedLanguages
    (register Examples.ascending_go_module
       (registerDefaultModules Examples.empty_workspace []))
  = ["python"; "go"; "javascript"]
  /\ getSupportedLanguages (register Golang.golangModule [])
     = ["go"]
  /\ getSupportedLanguages
       (unregister "python"
          (registerDefaultModules Examples.empty_workspace []))
     = ["go"; "javascript"].
Proof.
  destruct (supported_languages_order Examples.ascending_go_module "python"
              (registerDefaultModules Examples.empty_workspace []))
    as (Hkeep & _ & Hremove).
  destruct (supported_languages_order Golang.golangModule "python" [])
    as (_ & Hnew & _).
  split_and!.
  - apply Hkeep. simpl. tauto.
  - apply Hnew. simpl. tauto.
  - apply Hremove. simpl. compute_done.
Defined.

(** X6: [getModuleByExtension] returns the first module, in registration
    order, whose extensions include the lower-cased extension: a module
    it returns is registered and claims that extension, it returns
    [undefined] exactly when no registered module does, and modules
    registered later never take precedence. *)
Theorem getModuleByExtension_first_match (toLowerCase : string -> string)
    (extension : string) (entries : Modules) :
  let claims (m : LanguageModule) :=
    In (toLowerCase extension) (fileExtensions m) in
  (forall m,
      getModuleByExtension toLowerCase extension entries = Some m ->
      In m (getAllModules entries) /\ claims m)
  /\ (getModuleByExtension toLowerCase extension entries = None
      <-> forall m, In m (getAllModules entries) -> ~ claims m)
  /\ (forall before k m after,
        entries = before ++ (k, m) :: after ->
        (forall m', In m' (getAllModules before) -> ~ claims m') ->
        claims m ->
        getModuleByExtension toLowerCase extension entries = Some m).
Proof.
  intros claims. subst claims. unfold getModuleByExtension, getAllModules.
  split_and!.
  - intros m Hfind. apply find_some in Hfind as [Hm Hclaims].
    by apply array_includes_iff in Hclaims.
  - split.
    + intros Hnone m Hm Hclaims. apply array_includes_iff in Hclaims.
      pose proof (find_none _ _ Hnone m Hm) as Hfalse. simpl in Hfalse.
      congruence.
    + intros Hnobody. destruct (List.find _ _) as [m|] eqn:Hfind; [| done].
      apply find_some in Hfind as [Hm Hclaims].
      apply array_includes_iff in Hclaims. by destruct (Hnobody m Hm).
  - intros before k m after -> Hbefore Hclaims.
    rewrite map_app. simpl. apply find_first_match.
    + intros m' Hm'. apply not_true_is_false. intros H.
      apply array_includes_iff in H. by apply (Hbefore m' Hm').
    + by apply array_includes_iff.
Qed.

Lemma getModuleByExtension_first_match_witness :
  getModuleByExtension MoreExamples.lower "GO"
    (registerDefaultModules Examples.empty_workspace [])
  = Some Golang.golangModule.
Proof.
  destruct (getModuleByExtension_first_match MoreExamples.lower "GO"
              (registerDefaultModules Examples.empty_workspace []))
    as (_ & _ & Hfirst).
  apply (Hfirst [("python", Python.pythonModule Examples.empty_workspace)]
           "go" Golang.golangModule
           [("javascript", Javascript.javascriptModule)]).
  - reflexivity.
  - intros m' [<- | []]. simpl. vm_compute. intuition discriminate.
  - vm_compute. tauto.
Defined.

End OrderedRegistryFacts.

(** ** More on the bundled modules *)

Module ModulesExtra.
Import JSFacts Registry SortFacts RegistryFacts Examples.

Lemma languageRegistry_lookup_Some (vscode : Vscode) (lang : string)
    (module : LanguageModule) :
  languageRegistry vscode !! lang = Some module ->
  module = Python.pythonModule vscode
  \/ module = Golang.golangModule
  \/ module = Javascript.javascriptModule.
Proof.
  unfold languageRegistry, registerDefaultModules, bind, register.
  cbn [snd language Javascript.javascriptModule Golang.golangModule
       Python.pythonModule].
  intros Hlookup.
  apply lookup_insert_Some in Hlookup as [[_ <-] | [_ Hlookup]]; [tauto |].
  apply lookup_insert_Some in Hlookup as [[_ <-] | [_ Hlookup]]; [tauto |].
  apply lookup_insert_Some in Hlookup as [[_ <-] | [_ Hlookup]]; [tauto |].
  by rewrite lookup_empty in Hlookup.
Qed.

Lemma python_launches (vscode : Vscode) (symbol : SymbolInfo)
    (fw : LanguageFramework) :
  In fw (frameworks (Python.pythonModule vscode)) ->
  launches_as "python" (fw_debugConfig fw symbol).
Proof. by intros [<- | [<- | []]]. Qed.

Lemma javascript_launches (symbol : SymbolInfo) (fw : LanguageFramework) :
  In fw (frameworks Javascript.javascriptModule) ->
  launches_as "node" (fw_debugConfig fw symbol).
Proof. by intros [<- | [<- | []]]. Qed.

Lemma go_launches (symbol : SymbolInfo) (fw : LanguageFramework) :
  In fw (frameworks Golang.golangModule) ->
  launches_as "go" (fw_debugConfig fw symbol).
Proof.
  intros [<- | [<- | []]]; simpl; unfold Golang.generateGoDebugConfig;
    destruct (Golang.isGoTestFunction symbol);
    destruct (Golang.isGoMainFunction symbol); done.
Qed.

Lemma go_default_launches (filePath workspaceRoot : string) :
  launches_as "go" (Golang.goDefaultConfig filePath workspaceRoot).
Proof.
  unfold Golang.goDefaultConfig.
  destruct (String.eqb _ "main.go"); [done |].
  by destruct (JS.endsWith _ "_test.go").
Qed.

(** X12: for every language of the singleton registry and in every
    workspace, [generateDebugConfig] returns normally a configuration
    whose [type] is the module's [defaultDebugType] and whose [request]
    is [launch], whichever framework or default produced it. *)
Theorem bundled_configs_launch (vscode : Vscode) (symbol : SymbolInfo)
    (module : LanguageModule) :
  languageRegistry vscode !! sym_language symbol = Some module ->
  exists cfg,
    result (generateDebugConfig vscode symbol (languageRegistry vscode))
    = Returned cfg
    /\ cfg_type cfg = defaultDebugType module
    /\ cfg_request cfg = launch.
Proof.
  intros Hmod. rewrite generateDebugConfig_run, Hmod. unfold result. simpl.
  eexists. split; [reflexivity |].
  change (launches_as (defaultDebugType module)
            match List.find (framework_present vscode)
                    (JS.sort by_priority_desc (frameworks module)) with
            | Some fw => fw_debugConfig fw symbol
            | None => defaultConfig module (sym_filePath symbol)
                        (sym_workspaceRoot symbol)
            end).
  destruct (List.find _ _) as [fw|] eqn:Hfind.
  - apply find_some in Hfind as [Hfw _].
    eapply Permutation_in in Hfw; [| apply sort_frameworks_Permutation].
    destruct (languageRegistry_lookup_Some _ _ _ Hmod) as [-> | [-> | ->]].
    + by apply (python_launches vscode).
    + by apply go_launches.
    + by apply javascript_launches.
  - destruct (languageRegistry_lookup_Some _ _ _ Hmod) as [-> | [-> | ->]].
    + done.
    + apply go_default_launches.
    + done.
Qed.

Lemma bundled_configs_launch_witness :
  exists cfg,
    result (generateDebugConfig main_only_workspace TestAddition
              (languageRegistry main_only_workspace))
    = Returned cfg
    /\ cfg_type cfg = "go" /\ cfg_request cfg = launch.
Proof.
  apply (bundled_configs_launch main_only_workspace TestAddition
           Golang.golangModule).
  apply languageRegistry_go.
Defined.

(** X18: for the Python and JavaScript frameworks that define a test
    command (pytest, jest, mocha), the test command has the arguments and
    the working directory of the debug configuration for the same
    symbol. *)
Theorem testConfig_matches_debugConfig (vscode : Vscode)
    (fw : LanguageFramework) (symbol : SymbolInfo)
    (testConfig : SymbolInfo -> LanguageTestConfig) :
  In fw (frameworks (Python.pythonModule vscode)
         ++ frameworks Javascript.javascriptModule) ->
  fw_testConfig fw = Some testConfig ->
  cfg_args (fw_debugConfig fw symbol) = Some (tc_args (testConfig symbol))
  /\ cfg_cwd (fw_debugConfig fw symbol) = tc_cwd (testConfig symbol).
Proof.
  simpl. intros [<- | [<- | [<- | [<- | []]]]]; simpl;
    intros [= <-]; done.
Qed.

Lemma testConfig_matches_debugConfig_witness :
  exists testConfig,
    fw_testConfig Javascript.jest = Some testConfig
    /\ cfg_args (fw_debugConfig Javascript.jest TestAddition)
       = Some (tc_args (testConfig TestAddition)).
Proof.
  eexists. split; [reflexivity |].
  apply (testConfig_matches_debugConfig empty_workspace Javascript.jest
           TestAddition).
  - simpl. tauto.
  - reflexivity.
Defined.

Lemma endsWith_false (s t : string) :
  ~ (exists pre, s = pre +:+ t) -> JS.endsWith s t = false.
Proof.
  intros Hnot. apply not_true_is_false. intros H.
  by apply Hnot, endsWith_iff.
Qed.

(** X19: the TypeScript loader ([-r ts-node/register] and
    [TS_NODE_PROJECT]) is attached by jest and by the default factory
    exactly for a file ending in [.ts] or [.tsx], and by mocha exactly for
    a file ending in [.ts]; otherwise [runtimeArgs] and [env] are
    [undefined]: the factories write both keys in every case, with the
    value [undefined] when there is no loader. *)
Theorem typescript_loader (symbol : SymbolInfo) (workspaceRoot : string) :
  let filePath := sym_filePath symbol in
  let ts := exists pre, filePath = pre +:+ ".ts" in
  let tsx := exists pre, filePath = pre +:+ ".tsx" in
  let loaded (cfg : LanguageDebugConfig) :=
    cfg_runtimeArgs cfg = Some ["-r"; "ts-node/register"]
    /\ cfg_env cfg
       = Some [("TS_NODE_PROJECT", "${workspaceFolder}/tsconfig.json")] in
  let plain (cfg : LanguageDebugConfig) :=
    cfg_runtimeArgs cfg = None /\ cfg_env cfg = None in
  let jest := fw_debugConfig Javascript.jest symbol in
  let mocha := fw_debugConfig Javascript.mocha symbol in
  let default :=
    Javascript.javascriptDefaultConfig filePath workspaceRoot in
  (ts \/ tsx -> loaded jest /\ loaded default)
  /\ (~ (ts \/ tsx) -> plain jest /\ plain default)
  /\ (ts -> loaded mocha)
  /\ (~ ts -> plain mocha).
Proof.
  intros filePath ts tsx loaded plain jest mocha default.
  subst ts tsx loaded plain jest mocha default filePath.
  unfold Javascript.javascriptDefaultConfig. simpl. split_and!.
  - intros [Hts | Htsx].
    + apply endsWith_iff in Hts. by rewrite Hts.
    + apply endsWith_iff in Htsx. by rewrite Htsx, orb_true_r.
  - intros Hnot.
    rewrite (endsWith_false _ ".ts"), (endsWith_false _ ".tsx"); [done | |];
      intros H; apply Hnot; tauto.
  - intros Hts. apply endsWith_iff in Hts. by rewrite Hts.
  - intros Hnot. by rewrite (endsWith_false _ ".ts").
Qed.

Lemma typescript_loader_witness :
  let symbol :=
    {| sym_name := "renders"; sym_path := ["App"; "renders"];
       sym_kind := 12; sym_language := "javascript";
       sym_filePath := "/workspace/src/App.test.tsx";
       sym_workspaceRoot := "/workspace" |} in
  cfg_runtimeArgs (fw_debugConfig Javascript.jest symbol)
  = Some ["-r"; "ts-node/register"]
  /\ cfg_runtimeArgs (fw_debugConfig Javascript.mocha symbol) = None.
Proof.
  intros symbol.
  destruct (typescript_loader symbol "/workspace")
    as (Hloaded & _ & _ & Hplain).
  split.
  - apply Hloaded. right. by exists "/workspace/src/App.test".
  - apply Hplain. intros Hts. apply endsWith_iff in Hts.
    vm_compute in Hts. discriminate.
Defined.

End ModulesExtra.

(** ** How the registry's methods compose *)

Module RegistryCompose.
Import Registry SortFacts RegistryFacts RegistryExtra Examples.

Lemma sort_frameworks_idempotent (fws : list LanguageFramework) :
  JS.sort by_priority_desc (JS.sort by_priority_desc fws)
  = JS.sort by_priority_desc fws.
Proof.
  change by_priority_desc with (compare_desc fw_priority).
  apply sort_sorted_id, sort_sorted.
Qed.

(** X20: [generateDebugConfig] and [generateTestConfig] act on the
    framework that [detectFramework] returns for the same symbol: with a
    framework detected, the debug configuration is its
    [debugConfig(symbol)] and the test configuration its
    [testConfig(symbol)], when it has one. *)
Theorem generators_follow_detection (vscode : Vscode) (symbol : SymbolInfo)
    (modules : Registry) (module : LanguageModule) (fw : LanguageFramework) :
  modules !! sym_language symbol = Some module ->
  result (detectFramework vscode symbol modules) = Returned (Some fw) ->
  result (generateDebugConfig vscode symbol modules)
  = Returned (fw_debugConfig fw symbol)
  /\ result (generateTestConfig vscode symbol modules)
     = Returned ((fun testConfig => testConfig symbol) <$> fw_testConfig fw).
Proof.
  intros Hmod.
  rewrite detectFramework_run, generateDebugConfig_run,
    generateTestConfig_run, Hmod.
  unfold result. simpl. intros [= ->]. split; [done |].
  by destruct (fw_testConfig fw).
Qed.

Lemma generators_follow_detection_witness :
  result (generateDebugConfig main_only_workspace TestAddition
            (languageRegistry main_only_workspace))
  = Returned (Golang.generateGoDebugConfig TestAddition)
  /\ result (generateTestConfig main_only_workspace TestAddition
               (languageRegistry main_only_workspace))
     = Returned None.
Proof.
  apply (generators_follow_detection main_only_workspace TestAddition
           (languageRegistry main_only_workspace) Golang.golangModule
           Golang.go_main).
  - apply languageRegistry_go.
  - reflexivity.
Defined.

(** X21: the in-place sort never shows in a result: after any earlier
    [detectFramework] (and so after any earlier [generateDebugConfig],
    [generateTestConfig] or [getFrameworkInfo], which leave the same
    registry), each method returns what it would have returned on the
    registry as registered. *)
Theorem results_unaffected_by_earlier_calls (vscode0 vscode : Vscode)
    (symbol0 symbol : SymbolInfo) (lang : string) (modules : Registry) :
  let modules' :=
    modules_after (detectFramework vscode0 symbol0 modules) in
  result (detectFramework vscode symbol modules')
  = result (detectFramework vscode symbol modules)
  /\ result (generateDebugConfig vscode symbol modules')
     = result (generateDebugConfig vscode symbol modules)
  /\ result (generateTestConfig vscode symbol modules')
     = result (generateTestConfig vscode symbol modules)
  /\ result (getFrameworkInfo lang modules')
     = result (getFrameworkInfo lang modules).
Proof.
  intros modules'. subst modules'. rewrite detectFramework_state.
  rewrite !detectFramework_run, !generateDebugConfig_run,
    !generateTestConfig_run, !getFrameworkInfo_run.
  unfold result, after_sort. simpl.
  destruct (modules !! sym_language symbol0) as [module0|] eqn:Hmod0;
    [| done].
  split_and!.
  - destruct (decide (sym_language symbol0 = sym_language symbol))
      as [Heq | Hne].
    + rewrite <- Heq, lookup_insert_eq, Hmod0. simpl.
      by rewrite sort_frameworks_idempotent.
    + rewrite lookup_insert_ne by done.
      by destruct (modules !! sym_language symbol).
  - destruct (decide (sym_language symbol0 = sym_language symbol))
      as [Heq | Hne].
    + rewrite <- Heq, lookup_insert_eq, Hmod0. simpl.
      by rewrite sort_frameworks_idempotent.
    + rewrite lookup_insert_ne by done.
      by destruct (modules !! sym_language symbol).
  - destruct (decide (sym_language symbol0 = sym_language symbol))
      as [Heq | Hne].
    + rewrite <- Heq, lookup_insert_eq, Hmod0. simpl.
      by rewrite sort_frameworks_idempotent.
    + rewrite lookup_insert_ne by done.
      by destruct (modules !! sym_language symbol).
  - destruct (decide (sym_language symbol0 = lang)) as [Heq | Hne].
    + rewrite <- Heq, lookup_insert_eq, Hmod0. simpl.
      by rewrite sort_frameworks_idempotent.
    + rewrite lookup_insert_ne by done.
      by destruct (modules !! lang).
Qed.

End RegistryCompose.

(** ** Default factories outside the workspace *)

Module DefaultsExtra.
Import JSFacts.

Lemma indexOf_occurrence (s p : string) :
  0 <= JS.indexOf s p -> exists a b, s = a +:+ p +:+ b.
Proof.
  induction s as [|c s IH]; rewrite indexOf_unfold.
  - destruct (String.prefix p "") eqn:Hprefix; [| lia].
    intros _. apply prefix_inv in Hprefix as [r Hr]. by exists "", r.
  - destruct (String.prefix p (String c s)) eqn:Hprefix.
    + intros _. apply prefix_inv in Hprefix as [r Hr]. by exists "", r.
    + destruct (Z.ltb_spec (JS.indexOf s p) 0); [lia |].
      intros _. destruct IH as (a & b & ->); [done |].
      by exists (String c a), b.
Qed.

Lemma occurrence_indexOf (s p a b : string) :
  s = a +:+ p +:+ b -> 0 <= JS.indexOf s p.
Proof.
  intros ->. induction a as [|c a IH].
  - simpl String.append. rewrite indexOf_prefix. lia.
  - rewrite indexOf_unfold. destruct (String.prefix _ _); [lia |].
    simpl String.append. cbv iota.
    destruct (Z.ltb_spec (JS.indexOf (a +:+ p +:+ b) p) 0); lia.
Qed.

(** X22: when [workspaceRoot] does not occur in [filePath], the Python
    and JavaScript default factories still build a workspace-relative
    program: the token, a [/] and the whole [filePath] without one
    leading separator. *)
Theorem default_program_outside_workspace (filePath workspaceRoot : string) :
  ~ (exists a b, filePath = a +:+ workspaceRoot +:+ b) ->
  cfg_program (Python.pythonDefaultConfig filePath workspaceRoot)
  = Some ("${workspaceFolder}/" +:+ JS.strip_leading JS.is_sep filePath)
  /\ cfg_program (Javascript.javascriptDefaultConfig filePath workspaceRoot)
     = Some ("${workspaceFolder}/" +:+ JS.strip_leading JS.is_sep filePath).
Proof.
  intros Hnot.
  assert (JS.replace filePath workspaceRoot "" = filePath) as Hreplace.
  { unfold JS.replace.
    destruct (Z.ltb_spec (JS.indexOf filePath workspaceRoot) 0); [done |].
    exfalso. by apply Hnot, indexOf_occurrence. }
  unfold Python.pythonDefaultConfig, Javascript.javascriptDefaultConfig.
  simpl. by rewrite Hreplace.
Qed.

Lemma default_program_outside_workspace_witness :
  cfg_program (Python.pythonDefaultConfig "/opt/tool.py" "/workspace")
  = Some "${workspaceFolder}/opt/tool.py".
Proof.
  apply (default_program_outside_workspace "/opt/tool.py" "/workspace").
  intros (a & b & H). apply occurrence_indexOf in H.
  vm_compute in H. by destruct H.
Defined.

End DefaultsExtra.
